(** * DatamappingThoth: the data-file analysis engine of [analizador_datos.py]

    A shallow embedding of the header detector, the type inferencer, the
    value sampler and the three analyzers (CSV, Excel, Parquet), followed by
    the properties proved about them.

    Conventions of the embedding.
    - A Python [str] is a [string] whose characters are the code points
      U+0000..U+00FF (Latin-1); [String.length] is Python's [len].
    - A Python [float] is an IEEE-754 binary64 value, [spec_float] with the
      operations of [SpecFloat] at precision 53 (round to nearest even).
    - A Python [int] is a [Z]; a [dict] keyed by column name is a
      [gmap string _]; a [set] of strings is a [gset string].
    - An exception is represented by its message, [str(e)]; code that may
      raise returns a sum whose left injection is the raised exception.
    - The progress callback only emits messages and is left out. *)

From Stdlib Require Import ZArith Ascii String DecimalString SpecFloat.
From stdpp Require Import gmap strings list.

Local Open Scope string_scope.

(** ** Python strings *)

Module Py.

Definition cp (c : ascii) : nat := nat_of_ascii c.

Definition entre (lo hi n : nat) : bool := (lo <=? n)%nat && (n <=? hi)%nat.

(** [str.isspace] on one character: TAB..CR, FS..US, SPACE, NEL, NBSP. *)
Definition isspace (c : ascii) : bool :=
  entre 9 13 (cp c) || entre 28 32 (cp c) || (cp c =? 133)%nat || (cp c =? 160)%nat.

(** The white space that [int()] and [float()] skip around a numeral. *)
Definition isspace_num (c : ascii) : bool :=
  entre 9 13 (cp c) || (cp c =? 32)%nat || (cp c =? 133)%nat || (cp c =? 160)%nat.

(** A decimal digit, the only characters of category Nd below U+0100. *)
Definition isdecimal (c : ascii) : bool := entre 48 57 (cp c).

(** [str.isdigit] on one character: the decimal digits and the
    superscripts 2, 3 and 1. *)
Definition isdigit (c : ascii) : bool :=
  isdecimal c || (cp c =? 178)%nat || (cp c =? 179)%nat || (cp c =? 185)%nat.

Definition lower_char (c : ascii) : ascii :=
  if entre 65 90 (cp c) || (entre 192 222 (cp c) && negb (cp c =? 215)%nat)
  then ascii_of_nat (cp c + 32) else c.

(** [s.lower()] *)
Fixpoint lower (s : string) : string :=
  match s with
  | EmptyString => EmptyString
  | String c r => String (lower_char c) (lower r)
  end.

Section Strip.
Variable blanco : ascii -> bool.

Fixpoint lstrip_with (s : string) : string :=
  match s with
  | EmptyString => EmptyString
  | String c r => if blanco c then lstrip_with r else s
  end.

Fixpoint rstrip_with (s : string) : string :=
  match s with
  | EmptyString => EmptyString
  | String c r =>
      match rstrip_with r with
      | EmptyString => if blanco c then EmptyString else String c EmptyString
      | r' => String c r'
      end
  end.

Definition strip_with (s : string) : string := rstrip_with (lstrip_with s).
End Strip.

(** [s.strip()] *)
Definition strip : string -> string := strip_with isspace.

(** [s.replace(c, por)] for a one-character pattern [c]. *)
Fixpoint replace (c : ascii) (por : string) (s : string) : string :=
  match s with
  | EmptyString => EmptyString
  | String d r => if Ascii.eqb d c then por ++ replace c por r else String d (replace c por r)
  end.

(** [sub in s] *)
Fixpoint contains (sub s : string) : bool :=
  String.prefix sub s ||
  match s with
  | EmptyString => false
  | String _ r => contains sub r
  end.

(** [c in s] for a character *)
Fixpoint has_char (p : ascii -> bool) (s : string) : bool :=
  match s with
  | EmptyString => false
  | String d r => p d || has_char p r
  end.

(** [s[:n]] *)
Fixpoint slice_to (n : nat) (s : string) : string :=
  match n, s with
  | S k, String c r => String c (slice_to k r)
  | _, _ => EmptyString
  end.

(** [str(n)] for a natural number *)
Definition str_nat (n : nat) : string := NilZero.string_of_uint (Nat.to_uint n).

(** *** Numerals accepted by [int()] and [float()]

    Only acceptance matters to the analyzer: each call sits in a [try]
    whose handler discards the exception.  A digit part is
    [digit (["_"] digit)*]. *)

Fixpoint rest_digits (s : string) : string :=
  match s with
  | EmptyString => EmptyString
  | String c r =>
      if isdecimal c then rest_digits r
      else if Ascii.eqb c "_" then
        match r with
        | String d r' => if isdecimal d then rest_digits r' else s
        | EmptyString => s
        end
      else s
  end.

(** Consumes one digit part; [None] when [s] does not start with a digit. *)
Definition digit_part (s : string) : option string :=
  match s with
  | String c r => if isdecimal c then Some (rest_digits r) else None
  | EmptyString => None
  end.

Definition skip_sign (s : string) : string :=
  match s with
  | String c r => if Ascii.eqb c "+" || Ascii.eqb c "-" then r else s
  | EmptyString => s
  end.

(** [int(s)] returns (does not raise [ValueError]); base 10.  The digit
    count limit of recent interpreters is not modelled. *)
Definition int_ok (s : string) : bool :=
  match digit_part (skip_sign (strip_with isspace_num s)) with
  | Some EmptyString => true
  | _ => false
  end.

Definition exponent_ok (r : string) : bool :=
  match r with
  | EmptyString => true
  | String c r' =>
      if Ascii.eqb c "e" || Ascii.eqb c "E" then
        match digit_part (skip_sign r') with
        | Some EmptyString => true
        | _ => false
        end
      else false
  end.

(** [[digitpart] "." digitpart | digitpart ["."]], then an optional
    exponent. *)
Definition number_ok (s : string) : bool :=
  match digit_part s with
  | Some r =>
      match r with
      | String "."%char r' =>
          match digit_part r' with
          | Some r'' => exponent_ok r''
          | None => exponent_ok r'
          end
      | _ => exponent_ok r
      end
  | None =>
      match s with
      | String "."%char r' =>
          match digit_part r' with
          | Some r'' => exponent_ok r''
          | None => false
          end
      | _ => false
      end
  end.

Definition inf_or_nan (s : string) : bool :=
  let l := lower s in
  String.eqb l "inf" || String.eqb l "infinity" || String.eqb l "nan".

(** [float(s)] returns (does not raise [ValueError]). *)
Definition float_ok (s : string) : bool :=
  let body := skip_sign (strip_with isspace_num s) in
  inf_or_nan body || number_ok body.

(** [s.endswith(suf)] *)
Fixpoint endswith (suf s : string) : bool :=
  String.eqb s suf ||
  match s with
  | EmptyString => false
  | String _ r => endswith suf r
  end.

(** The text before the last [c] of [s]; [None] when [s] has no [c]. *)
Fixpoint antes_del_ultimo (c : ascii) (s : string) : option string :=
  match s with
  | EmptyString => None
  | String d r =>
      match antes_del_ultimo c r with
      | Some p => Some (String d p)
      | None => if Ascii.eqb d c then Some EmptyString else None
      end
  end.

(** [s.rsplit(c, 1)[0]] *)
Definition rsplit1 (c : ascii) (s : string) : string :=
  default s (antes_del_ultimo c s).

End Py.

(** ** Python floats *)

Module PyFloat.

Definition t : Type := spec_float.

(** binary64: 53 bits of precision, exponents below 1024. *)
Definition prec : Z := 53.
Definition emax : Z := 1024.

(** [float(z)], exact for |z| < 2^53. *)
Definition of_int (z : Z) : t := binary_normalize prec emax z 0 false.

Definition add : t -> t -> t := SFadd prec emax.
Definition sub : t -> t -> t := SFsub prec emax.
Definition div : t -> t -> t := SFdiv prec emax.
Definition ltb : t -> t -> bool := SFltb.
Definition leb : t -> t -> bool := SFleb.

(** The literal [num/den] written in decimal: the binary64 nearest to
    the quotient (the division is correctly rounded). *)
Definition lit (num den : Z) : t := div (of_int num) (of_int den).

Definition f0_0 : t := Eval cbv in of_int 0.
Definition f0_1 : t := Eval cbv in lit 1 10.
Definition f0_2 : t := Eval cbv in lit 2 10.
Definition f0_3 : t := Eval cbv in lit 3 10.
Definition f0_5 : t := Eval cbv in lit 5 10.
Definition fm1 : t := Eval cbv in of_int (-1).

(** *** Order and sign, for the statements *)

Definition is_nan (x : t) : bool :=
  match x with S754_nan => true | _ => false end.

(** A key whose lexicographic order is the order [SFcompare] computes. *)
Definition clave (x : t) : Z * Z * Z :=
  match x with
  | S754_nan | S754_zero _ => (0, 0, 0)
  | S754_infinity true => (-2, 0, 0)
  | S754_infinity false => (2, 0, 0)
  | S754_finite true m e => (-1, - e, - Zpos m)
  | S754_finite false m e => (1, e, Zpos m)
  end%Z.

Definition lex (a b : Z * Z * Z) : Prop :=
  (a.1.1 < b.1.1 \/ (a.1.1 = b.1.1 /\ (a.1.2 < b.1.2 \/ (a.1.2 = b.1.2 /\ a.2 < b.2))))%Z.

Definition lex_le (a b : Z * Z * Z) : Prop :=
  (a.1.1 < b.1.1 \/ (a.1.1 = b.1.1 /\ (a.1.2 < b.1.2 \/ (a.1.2 = b.1.2 /\ a.2 <= b.2))))%Z.

(** Zero, a negative number or minus infinity. *)
Definition no_positivo (x : t) : Prop :=
  match x with
  | S754_zero _ | S754_infinity true | S754_finite true _ _ => True
  | _ => False
  end.

Definition positivo_finito (x : t) : Prop :=
  match x with
  | S754_finite false _ _ => True
  | _ => False
  end.

(** *** Formatting with one decimal *)

(** [num/den] rounded to an integer, a tie going to the even one
    ([0 <= num], [0 < den]). *)
Definition redondear (num den : Z) : Z :=
  let q := (num / den)%Z in
  let r := (num mod den)%Z in
  if (2 * r <? den)%Z then q
  else if (den <? 2 * r)%Z then (q + 1)%Z
  else if Z.even q then q else (q + 1)%Z.

(** The decimal text of [num/den] with one digit after the point,
    correctly rounded. *)
Definition decimal_1 (num den : Z) : string :=
  let decimos := redondear (10 * num) den in
  Py.str_nat (Z.to_nat (decimos / 10)) ++ "." ++ Py.str_nat (Z.to_nat (decimos mod 10)).

(** The value [m * 2^e] as a fraction. *)
Definition fraccion (m : positive) (e : Z) : Z * Z :=
  if (0 <=? e)%Z then (Zpos m * 2 ^ e, 1)%Z else (Zpos m, 2 ^ (- e))%Z.

(** [format(x, '.1f')] *)
Definition format_1f (x : t) : string :=
  match x with
  | S754_nan => "nan"
  | S754_infinity s => (if s then "-" else "") ++ "inf"
  | S754_zero s => (if s then "-" else "") ++ "0.0"
  | S754_finite s m e =>
      (if s then "-" else "") ++ decimal_1 (fraccion m e).1 (fraccion m e).2
  end.

End PyFloat.

(** ** Values

    A cell is [None], a [str], or another Python object.  The analyzer
    observes an object only through [type(v).__name__], [str(v)] and its
    truth value, so an object is those three observations. *)

Inductive valor : Type :=
| VNone
| VStr (s : string)
| VObj (tipo : string) (texto : string) (verdad : bool).

(** [v is None] *)
Definition is_none (v : valor) : bool :=
  match v with VNone => true | _ => false end.

(** [str(v)] *)
Definition py_str (v : valor) : string :=
  match v with
  | VNone => "None"
  | VStr s => s
  | VObj _ texto _ => texto
  end.

(** The truth value of [v], as in [if v]. *)
Definition py_bool (v : valor) : bool :=
  match v with
  | VNone => false
  | VStr s => negb (String.eqb s "")
  | VObj _ _ verdad => verdad
  end.

(** [type(v).__name__] *)
Definition type_name (v : valor) : string :=
  match v with
  | VNone => "NoneType"
  | VStr _ => "str"
  | VObj tipo _ _ => tipo
  end.

Definition excepcion : Type := string.

(** An iterator: the items it yields, then either exhaustion ([None]) or
    the exception raised by the next read. *)
Definition flujo (A : Type) : Type := (list A * option excepcion)%type.

(** ** Constants *)

Definition CHUNK_SIZE : Z := 10000.
Definition MUESTRA_VALORES : nat := 5.
Definition MAX_FILAS_BUSQUEDA_HEADER : nat := 20.

(** ** HeaderDetector *)

Definition enye : ascii := ascii_of_nat 241.

Definition palabras_header : list string :=
  [ "id"; "nombre"; "name"; "fecha"; "date"; "codigo"; "code"; "tipo"; "type";
    "descripcion"; "description"; "cantidad"; "amount"; "total"; "precio"; "price";
    "estado"; "status"; "usuario"; "user"; "email"; "telefono"; "phone";
    "direccion"; "address"; "ciudad"; "city"; "pais"; "country"; "numero"; "number";
    "clave"; "key"; "valor"; "value"; "categoria"; "category"; "producto"; "product";
    "cliente"; "customer"; "orden"; "order"; "factura"; "invoice"; "cuenta"; "account";
    String "a" (String enye "o"); "year"; "mes"; "month"; "dia"; "day"; "hora"; "time";
    "created"; "updated" ].

Definition es_letra_ascii (c : ascii) : bool :=
  Py.entre 65 90 (Py.cp c) || Py.entre 97 122 (Py.cp c).

Definition es_palabra_ascii (c : ascii) : bool :=
  es_letra_ascii c || Py.isdecimal c || Ascii.eqb c "_".

(** The tail [[a-zA-Z0-9_]*$]; [$] also matches before a final newline. *)
Fixpoint resto_identificador (s : string) : bool :=
  match s with
  | EmptyString => true
  | String c r =>
      if es_palabra_ascii c then resto_identificador r
      else Ascii.eqb c (ascii_of_nat 10) && String.eqb r ""
  end.

(** [re.match(r'^[a-zA-Z][a-zA-Z0-9_]*$', s)] finds a match. *)
Definition es_identificador (s : string) : bool :=
  match s with
  | EmptyString => false
  | String c r => es_letra_ascii c && resto_identificador r
  end.

(** [celda is None or str(celda).strip() == ''] *)
Definition celda_en_blanco (celda : valor) : bool :=
  is_none celda || String.eqb (Py.strip (py_str celda)) "".

(** [str(celda).strip().lower()] *)
Definition celda_str (celda : valor) : string :=
  Py.lower (Py.strip (py_str celda)).

(** [float(celda_str.replace(',', '.'))] does not raise. *)
Definition es_numero_puro (celda : valor) : bool :=
  Py.float_ok (Py.replace "," "." (celda_str celda)).

(** The bonuses and penalties of a cell that is not a pure number. *)
Definition puntuar_texto (score : PyFloat.t) (s : string) : PyFloat.t :=
  let score :=
    if existsb (fun palabra => Py.contains palabra s) palabras_header
    then PyFloat.add score PyFloat.f0_5 else score in
  let score :=
    if es_identificador s then PyFloat.add score PyFloat.f0_3 else score in
  let score :=
    if (2 <=? String.length s)%nat && (String.length s <=? 50)%nat
    then PyFloat.add score PyFloat.f0_2 else score in
  if (100 <? String.length s)%nat then PyFloat.sub score PyFloat.f0_5 else score.

(** One turn of the loop over the cells: the state is
    [(score, celdas_validas)]. *)
Definition puntuar_celda (st : PyFloat.t * Z) (celda : valor) : PyFloat.t * Z :=
  let '(score, celdas_validas) := st in
  if celda_en_blanco celda then st
  else if es_numero_puro celda then (PyFloat.sub score PyFloat.f0_3, celdas_validas + 1)%Z
  else (puntuar_texto score (celda_str celda), celdas_validas + 1)%Z.

(** [len([c for c in fila if c])] *)
Definition celdas_con_valor (fila : list valor) : nat :=
  length (List.filter py_bool fila).

Definition _es_encabezado_valido (fila : list valor) (min_columnas : nat)
  : bool * PyFloat.t :=
  if bool_decide (fila = []) || (celdas_con_valor fila <? min_columnas)%nat
  then (false, PyFloat.f0_0)
  else
    let num_celdas := Z.of_nat (length fila) in
    let '(score, celdas_validas) := fold_left puntuar_celda fila (PyFloat.f0_0, 0%Z) in
    let score :=
      if (0 <? celdas_validas)%Z
      then PyFloat.div score (PyFloat.of_int celdas_validas) else score in
    let ratio_validas :=
      if (0 <? num_celdas)%Z
      then PyFloat.div (PyFloat.of_int celdas_validas) (PyFloat.of_int num_celdas)
      else PyFloat.f0_0 in
    let score :=
      if PyFloat.ltb ratio_validas PyFloat.f0_5
      then PyFloat.sub score PyFloat.f0_5 else score in
    (PyFloat.ltb PyFloat.f0_1 score, score).

(** The state of the search loop: [(mejor_score, mejor_idx, mejor_fila)]. *)
Definition busqueda : Type := (PyFloat.t * nat * list valor)%type.

Definition paso_busqueda (st : busqueda) (item : nat * list valor) : busqueda :=
  let '(mejor_score, mejor_idx, mejor_fila) := st in
  let '(idx, fila) := item in
  let '(es_header, score) := _es_encabezado_valido fila 2 in
  if es_header && PyFloat.ltb mejor_score score then (score, idx, fila) else st.

(** [enumerate(l)] *)
Definition enumerate {A : Type} (l : list A) : list (nat * A) :=
  combine (seq 0 (length l)) l.

(** The header names of the chosen row. *)
Definition limpiar_encabezado (item : nat * valor) : string :=
  let '(i, h) := item in
  if is_none h || String.eqb (Py.strip (py_str h)) ""
  then "Col_" ++ Py.str_nat (i + 1)
  else Py.strip (py_str h).

Definition _buscar_fila_encabezado (filas : list (list valor)) : nat * list string :=
  let '(_, mejor_idx, mejor_fila) :=
    fold_left paso_busqueda
      (enumerate (take MAX_FILAS_BUSQUEDA_HEADER filas))
      (PyFloat.fm1, 0%nat, []) in
  let '(mejor_idx, mejor_fila) :=
    match mejor_fila, filas with
    | [], primera :: _ => (0%nat, primera)
    | _, _ => (mejor_idx, mejor_fila)
    end in
  (mejor_idx, map limpiar_encabezado (enumerate mejor_fila)).

(** ** TypeInferencer *)

(** [_detectar_tipo]: the type of a CSV field. *)
Definition _detectar_tipo (valor_str : string) : string :=
  if String.eqb valor_str "" || String.eqb (Py.strip valor_str) "" then "texto"
  else if Py.int_ok (Py.strip (Py.replace "." "" (Py.replace "," "" valor_str))) then
    if Py.has_char (Ascii.eqb ".") valor_str || Py.has_char (Ascii.eqb ",") valor_str
    then "decimal" else "entero"
  else if Py.float_ok (Py.strip (Py.replace "," "." valor_str)) then "decimal"
  else if (Py.has_char (Ascii.eqb "/") valor_str || Py.has_char (Ascii.eqb "-") valor_str)
          && (String.length valor_str <=? 20)%nat
          && Py.has_char Py.isdigit valor_str
  then "fecha"
  else "texto".

Definition en_lista (s : string) (l : list string) : bool :=
  existsb (String.eqb s) l.

(** [_detectar_tipo_valor]: the type of a native (spreadsheet) value. *)
Definition _detectar_tipo_valor (v : valor) : string :=
  if is_none v then "texto"
  else
    let tipo := type_name v in
    if en_lista tipo ["int"; "int64"; "int32"] then "entero"
    else if en_lista tipo ["float"; "float64"; "float32"] then "decimal"
    else if String.eqb tipo "datetime" then "fecha"
    else if String.eqb tipo "bool" then "booleano"
    else "texto".

(** [_traducir_tipo_arrow]: the category of an Arrow type name. *)
Definition _traducir_tipo_arrow (tipo_arrow : string) : string :=
  let tipo_lower := Py.lower tipo_arrow in
  if Py.contains "int" tipo_lower then "entero"
  else if Py.contains "float" tipo_lower || Py.contains "double" tipo_lower then "decimal"
  else if Py.contains "timestamp" tipo_lower || Py.contains "date" tipo_lower then "fecha"
  else if Py.contains "bool" tipo_lower then "booleano"
  else if Py.contains "string" tipo_lower || Py.contains "utf8" tipo_lower then "texto"
  else tipo_arrow.

(** ** The result model *)

(** The table part of a result dictionary.  [muestra_valores] is built as
    [{k: list(v)}] from sets, so each entry is a set of strings listed in
    no particular order.  [fila_encabezado] is absent from Parquet
    results. *)
Record datos_tabla : Type := {
  columnas : list string;
  total_filas : Z;
  muestra_valores : gmap string (gset string);
  tipos_detectados : gmap string string;
  fila_encabezado : option Z
}.

Record hoja_info : Type := {
  nombre : string;
  hoja_datos : datos_tabla
}.

(** A result dictionary; a key that is not set is [None]. *)
Record resultado : Type := {
  tipo : option string;
  ruta : string;
  tamano_bytes : option Z;
  datos : option datos_tabla;
  hojas : option (list hoja_info);
  error : option excepcion
}.

(** ** ValueSampler and the per-column type policy *)

(** The state carried along the data rows: [valores_unicos] and
    [tipos_detectados]. *)
Definition acumulado : Type := (gmap string (gset string) * gmap string string)%type.

(** [if len(valores_unicos[col]) < MUESTRA_VALORES:
       valores_unicos[col].add(str(val)[:50])] *)
Definition muestrear (col : string) (val : valor)
    (valores_unicos : gmap string (gset string)) : gmap string (gset string) :=
  if (size (valores_unicos !!! col) <? MUESTRA_VALORES)%nat
  then <[col := valores_unicos !!! col ∪ {[ Py.slice_to 50 (py_str val) ]}]> valores_unicos
  else valores_unicos.

(** [if tipos[col] == 'texto' and tipo != 'texto': tipos[col] = tipo] *)
Definition promover (col : string) (tipo : string)
    (tipos : gmap string string) : gmap string string :=
  if String.eqb (tipos !!! col) "texto" && negb (String.eqb tipo "texto")
  then <[col := tipo]> tipos
  else tipos.

(** The body shared by the CSV and the Excel loops over the cells of a
    row; they differ in which values they take ([admite]) and in how they
    classify one ([clasifica]). *)
Definition procesar_celda (admite : valor -> bool) (clasifica : valor -> string)
    (headers : list string) (fila_num : Z)
    (st : acumulado) (item : nat * valor) : acumulado :=
  let '(i, val) := item in
  match headers !! i with
  | Some col =>
      if admite val then
        (muestrear col val st.1,
         if (fila_num <=? 1000)%Z then promover col (clasifica val) st.2 else st.2)
      else st
  | None => st
  end.

(** [val and str(val).strip()] *)
Definition admite_csv (val : valor) : bool :=
  py_bool val && negb (String.eqb (Py.strip (py_str val)) "").

(** [val is not None] *)
Definition admite_nativo (val : valor) : bool := negb (is_none val).

Definition _procesar_fila_datos (row : list valor) (headers : list string)
    (st : acumulado) (fila_num : Z) : acumulado :=
  fold_left
    (procesar_celda admite_csv (fun val => _detectar_tipo (py_str val)) headers fila_num)
    (enumerate row) st.

(** The body of the loop over the rows of a sheet in [analizar_excel]. *)
Definition procesar_fila_excel (row : list valor) (headers : list string)
    (st : acumulado) (filas_datos : Z) : acumulado :=
  fold_left
    (procesar_celda admite_nativo _detectar_tipo_valor headers filas_datos)
    (enumerate row) st.

(** A loop [for row in rows: n += 1; procesar(row, headers, st, n)]; it
    returns the state and the counter. *)
Fixpoint procesar_filas (procesar : list valor -> list string -> acumulado -> Z -> acumulado)
    (rows : list (list valor)) (headers : list string)
    (st : acumulado) (n : Z) : acumulado * Z :=
  match rows with
  | [] => (st, n)
  | row :: rest =>
      procesar_filas procesar rest headers (procesar row headers st (n + 1)%Z) (n + 1)%Z
  end.

(** [{col: set() for col in headers}] and [{col: 'texto' for col in headers}] *)
Definition acumulado_inicial (headers : list string) : acumulado :=
  (foldl (fun m col => <[col := ∅]> m) ∅ headers,
   foldl (fun m col => <[col := "texto"]> m) ∅ headers).

(** ** StreamingCsvAnalyzer *)

(** What the file system and the [csv] reader give for one path:
    [os.path.getsize], then either the exception raised while opening and
    sniffing or the rows the reader yields. *)
Record entrada_csv : Type := {
  csv_getsize : excepcion + Z;
  csv_reader : excepcion + flujo (list string)
}.

Definition datos_vacios (fila : option Z) : datos_tabla :=
  {| columnas := []; total_filas := 0; muestra_valores := ∅;
     tipos_detectados := ∅; fila_encabezado := fila |}.

Definition resultado_csv (ruta : string) (tam : Z) (d : datos_tabla)
    (err : option excepcion) : resultado :=
  {| tipo := Some "CSV"; ruta := ruta; tamano_bytes := Some tam;
     datos := Some d; hojas := None; error := err |}.

Definition analizar_csv (ruta : string) (f : entrada_csv) : excepcion + resultado :=
  match csv_getsize f with
  | inl e => inl e
  | inr tam =>
      inr
        match csv_reader f with
        | inl e => resultado_csv ruta tam (datos_vacios (Some 1%Z)) (Some e)
        | inr (filas, fin) =>
            let primeras_filas :=
              map (map VStr) (take (MAX_FILAS_BUSQUEDA_HEADER + 1) filas) in
            match fin, (length filas <? MAX_FILAS_BUSQUEDA_HEADER + 1)%nat with
            | Some e, true =>
                (* the reader raises while the first rows are read *)
                resultado_csv ruta tam (datos_vacios (Some 1%Z)) (Some e)
            | _, _ =>
                match primeras_filas with
                | [] => resultado_csv ruta tam (datos_vacios (Some 1%Z)) None
                | _ :: _ =>
                    let '(idx_header, headers) := _buscar_fila_encabezado primeras_filas in
                    let '(st, filas_leidas) :=
                      procesar_filas _procesar_fila_datos
                        (drop (idx_header + 1) primeras_filas)
                        headers (acumulado_inicial headers) 0%Z in
                    let '(st, filas_leidas) :=
                      procesar_filas _procesar_fila_datos
                        (map (map VStr) (drop (MAX_FILAS_BUSQUEDA_HEADER + 1) filas))
                        headers st filas_leidas in
                    match fin with
                    | Some e =>
                        (* the reader raises in the streaming loop, before
                           [total_filas] and [muestra_valores] are stored *)
                        resultado_csv ruta tam
                          {| columnas := headers; total_filas := 0; muestra_valores := ∅;
                             tipos_detectados := st.2;
                             fila_encabezado := Some (Z.of_nat idx_header + 1)%Z |}
                          (Some e)
                    | None =>
                        resultado_csv ruta tam
                          {| columnas := headers; total_filas := filas_leidas;
                             muestra_valores := st.1; tipos_detectados := st.2;
                             fila_encabezado := Some (Z.of_nat idx_header + 1)%Z |}
                          None
                    end
                end
            end
        end
  end.

(** ** StreamingExcelAnalyzer *)

(** A workbook: its sheet names in order, each with the rows that
    [ws.iter_rows(values_only=True)] yields. *)
Definition libro : Type := list (string * flujo (list valor)).

Record entrada_excel : Type := {
  xl_getsize : excepcion + Z;
  xl_load_workbook : excepcion + libro
}.

(** One turn of the loop over the sheets: the [hoja_info] appended to
    [resultado['hojas']], or the exception that leaves the loop. *)
Definition analizar_hoja (nombre_hoja : string) (rows : flujo (list valor))
  : excepcion + hoja_info :=
  match rows with
  | (_, Some e) => inl e
  | (todas_filas, None) =>
      let primeras_filas := take MAX_FILAS_BUSQUEDA_HEADER todas_filas in
      inr
        match primeras_filas with
        | [] => {| nombre := nombre_hoja; hoja_datos := datos_vacios (Some 1%Z) |}
        | _ :: _ =>
            let '(idx_header, headers) := _buscar_fila_encabezado primeras_filas in
            let '(st, filas_datos) :=
              procesar_filas procesar_fila_excel (drop (idx_header + 1) todas_filas)
                headers (acumulado_inicial headers) 0%Z in
            {| nombre := nombre_hoja;
               hoja_datos :=
                 {| columnas := headers; total_filas := filas_datos;
                    muestra_valores := st.1; tipos_detectados := st.2;
                    fila_encabezado := Some (Z.of_nat idx_header + 1)%Z |} |}
        end
  end.

(** The loop over [wb.sheetnames]: the sheets appended, and the exception
    that ended the loop early, if any. *)
Fixpoint analizar_hojas (wb : libro) (hechas : list hoja_info)
  : list hoja_info * option excepcion :=
  match wb with
  | [] => (hechas, None)
  | (nombre_hoja, rows) :: resto =>
      match analizar_hoja nombre_hoja rows with
      | inl e => (hechas, Some e)
      | inr hoja => analizar_hojas resto (hechas ++ [hoja])
      end
  end.

Definition resultado_error (ruta : string) (e : excepcion) : resultado :=
  {| tipo := None; ruta := ruta; tamano_bytes := None;
     datos := None; hojas := None; error := Some e |}.

Definition analizar_excel (openpyxl : bool) (ruta : string) (f : entrada_excel)
  : excepcion + resultado :=
  if negb openpyxl
  then inr (resultado_error ruta "Instala openpyxl: pip install openpyxl")
  else
    match xl_getsize f with
    | inl e => inl e
    | inr tam =>
        let '(hs, err) :=
          match xl_load_workbook f with
          | inl e => ([], Some e)
          | inr wb => analizar_hojas wb []
          end in
        inr {| tipo := Some "Excel"; ruta := ruta; tamano_bytes := Some tam;
               datos := None; hojas := Some hs; error := err |}
    end.

(** ** StreamingParquetAnalyzer *)

(** A record batch, seen through [batch.schema.get_field_index(col_name)]
    and [batch.column(col_idx)]: the values of the column fetched for a
    name, converted by [as_py], or the exception raised on the way. *)
Definition batch : Type := string -> excepcion + list valor.

(** An opened [ParquetFile]: [metadata.num_rows], the fields of
    [schema_arrow] as (name, [str(field.type)]), and the batches that
    [iter_batches(batch_size)] yields. *)
Record archivo_parquet : Type := {
  num_rows : Z;
  schema_arrow : list (string * string);
  iter_batches : Z -> flujo batch
}.

Record entrada_parquet : Type := {
  pq_getsize : excepcion + Z;
  pq_ParquetFile : excepcion + archivo_parquet
}.

(** The loop [for i in range(min(len(column), MUESTRA_VALORES * 2))]. *)
Definition muestrear_columna (col_name : string) (column : list valor)
    (valores_unicos : gmap string (gset string)) : gmap string (gset string) :=
  fold_left
    (fun vu val =>
       if (MUESTRA_VALORES <=? size (vu !!! col_name))%nat then vu
       else if is_none val then vu
       else <[col_name := vu !!! col_name ∪ {[ Py.slice_to 50 (py_str val) ]}]> vu)
    (take (Nat.min (length column) (MUESTRA_VALORES * 2)) column)
    valores_unicos.

(** The loop over the columns of the first batch. *)
Definition muestrear_batch (b : batch) (columnas : list string)
    (valores_unicos : gmap string (gset string)) : gmap string (gset string) :=
  fold_left
    (fun vu col_name =>
       if (MUESTRA_VALORES <=? size (vu !!! col_name))%nat then vu
       else
         match b col_name with
         | inl _ => vu
         | inr column => muestrear_columna col_name column vu
         end)
    columnas valores_unicos.

Definition analizar_parquet (pyarrow : bool) (ruta : string) (f : entrada_parquet)
  : excepcion + resultado :=
  if negb pyarrow
  then inr (resultado_error ruta "Instala pyarrow: pip install pyarrow")
  else
    match pq_getsize f with
    | inl e => inl e
    | inr tam =>
        inr
          match pq_ParquetFile f with
          | inl e =>
              {| tipo := Some "Parquet"; ruta := ruta; tamano_bytes := Some tam;
                 datos := Some (datos_vacios None); hojas := None; error := Some e |}
          | inr parquet_file =>
              let columnas := map fst (schema_arrow parquet_file) in
              let tipos :=
                foldl (fun m field => <[field.1 := _traducir_tipo_arrow field.2]> m)
                  ∅ (schema_arrow parquet_file) in
              let valores_unicos := foldl (fun m col => <[col := ∅]> m) ∅ columnas in
              let valores_unicos :=
                match iter_batches parquet_file (Z.min 1000 CHUNK_SIZE) with
                | (b :: _, _) => muestrear_batch b columnas valores_unicos
                | ([], _) => valores_unicos
                end in
              {| tipo := Some "Parquet"; ruta := ruta; tamano_bytes := Some tam;
                 datos :=
                   Some {| columnas := columnas; total_filas := num_rows parquet_file;
                           muestra_valores := valores_unicos; tipos_detectados := tipos;
                           fila_encabezado := None |};
                 hojas := None; error := None |}
          end
    end.

(** ** The analysis loop of [generar_reporte_datos] *)






(** The name of the report file in [generar_reporte_datos], from the
    arguments [archivo_salida] and [formato]. *)
Definition nombre_archivo (archivo_salida formato : string) : string :=
  if String.eqb (Py.lower formato) "txt" then
    if Py.endswith ".txt" (Py.lower archivo_salida) then archivo_salida
    else Py.rsplit1 "." archivo_salida ++ ".txt"
  else if String.eqb (Py.lower formato) "csv" then
    if Py.endswith ".csv" (Py.lower archivo_salida) then archivo_salida
    else Py.rsplit1 "." archivo_salida ++ ".csv"
  else
    if Py.endswith ".pdf" (Py.lower archivo_salida) then archivo_salida
    else Py.rsplit1 "." archivo_salida ++ ".pdf".

(** The variable [bytes_num] of [_formato_bytes]: an [int] at first, a
    [float] after the first division. *)
Inductive numero : Type :=
| NInt (z : Z)
| NFloat (x : PyFloat.t).

(** [bytes_num < 1024] *)
Definition menor_1024 (bytes_num : numero) : bool :=
  match bytes_num with
  | NInt z => (z <? 1024)%Z
  | NFloat x => PyFloat.ltb x (PyFloat.of_int 1024)
  end.

(** [bytes_num /= 1024]: the quotient of two integers is correctly
    rounded, and raises when it is out of the range of a float. *)
Definition dividir_1024 (bytes_num : numero) : excepcion + numero :=
  match bytes_num with
  | NInt z =>
      match binary_normalize PyFloat.prec PyFloat.emax z (-10) false with
      | S754_infinity _ => inl "integer division result too large for a float"
      | x => inr (NFloat x)
      end
  | NFloat x => inr (NFloat (PyFloat.div x (PyFloat.of_int 1024)))
  end.

(** [f"{bytes_num:.1f} {unit}"] *)
Definition formato_unidad (bytes_num : numero) (unit : string) : excepcion + string :=
  match bytes_num with
  | NInt z =>
      match PyFloat.of_int z with
      | S754_infinity _ => inl "int too large to convert to float"
      | x => inr (PyFloat.format_1f x ++ " " ++ unit)
      end
  | NFloat x => inr (PyFloat.format_1f x ++ " " ++ unit)
  end.

(** The loop over the units, and the [return] after it. *)
Fixpoint formato_bytes_desde (units : list string) (bytes_num : numero)
  : excepcion + string :=
  match units with
  | [] => formato_unidad bytes_num "TB"
  | unit :: resto =>
      if menor_1024 bytes_num then formato_unidad bytes_num unit
      else
        match dividir_1024 bytes_num with
        | inl e => inl e
        | inr bytes_num => formato_bytes_desde resto bytes_num
        end
  end.

Definition _formato_bytes (bytes_num : Z) : excepcion + string :=
  formato_bytes_desde ["B"; "KB"; "MB"; "GB"] (NInt bytes_num).

(** ** Vocabulary of the statements *)

(** The number of non-empty cells of a row, by the test of the scoring
    loop: a cell is empty when it is [None] or blank. *)
Definition celdas_no_en_blanco (fila : list valor) : nat :=
  length (List.filter (fun c => negb (celda_en_blanco c)) fila).

(** Every cell the loop visits is a pure number. *)
Definition todas_numericas (fila : list valor) : Prop :=
  forall c, In c fila -> celda_en_blanco c = false -> es_numero_puro c = true.

Definition es_elegible (fila : list valor) : bool := (_es_encabezado_valido fila 2).1.
Definition puntaje (fila : list valor) : PyFloat.t := (_es_encabezado_valido fila 2).2.

(** The state in which the loop of [_buscar_fila_encabezado] ends. *)
Definition busqueda_final (filas : list (list valor)) : busqueda :=
  fold_left paso_busqueda
    (enumerate (take MAX_FILAS_BUSQUEDA_HEADER filas)) (PyFloat.fm1, 0%nat, []).

(** The data of a CSV result whose header was detected: the two loops of
    [analizar_csv] are one pass over the rows after the header. *)
Definition csv_pasada (filas : list (list string)) : nat * list string * (acumulado * Z) :=
  let filas_v := map (map VStr) filas in
  let '(idx_header, headers) :=
    _buscar_fila_encabezado (take (MAX_FILAS_BUSQUEDA_HEADER + 1) filas_v) in
  (idx_header, headers,
   procesar_filas _procesar_fila_datos (drop (idx_header + 1) filas_v)
     headers (acumulado_inicial headers) 0%Z).

(** The sheet analysis as one pass. *)
Definition excel_pasada (todas_filas : list (list valor))
  : nat * list string * (acumulado * Z) :=
  let '(idx_header, headers) :=
    _buscar_fila_encabezado (take MAX_FILAS_BUSQUEDA_HEADER todas_filas) in
  (idx_header, headers,
   procesar_filas procesar_fila_excel (drop (idx_header + 1) todas_filas)
     headers (acumulado_inicial headers) 0%Z).

Definition escenario_A : list (list string) :=
  [ ["Report 2024"]; [""; ""]; ["id"; "name"; "amount"]; ["1"; "Alice"; "100.5"] ].

(** A cell that has a header: its column, its value and the number of its
    data row. *)
Definition evento : Type := (string * valor * Z)%type.

Definition eventos_fila (headers : list string) (row : list valor) (n : Z) : list evento :=
  omap (fun item : nat * valor => (fun col => (col, item.2, n)) <$> headers !! item.1)
       (enumerate row).

(** The events of the rows numbered [n + 1], [n + 2], ... *)
Fixpoint eventos (headers : list string) (rows : list (list valor)) (n : Z) : list evento :=
  match rows with
  | [] => []
  | row :: rest => eventos_fila headers row (n + 1) ++ eventos headers rest (n + 1)
  end.

Section Pasada_definiciones.
Variable admite : valor -> bool.
Variable clasifica : valor -> string.

(** What one event does to the state, as [procesar_celda] does it. *)
Definition aplicar_evento (st : acumulado) (ev : evento) : acumulado :=
  if admite ev.1.2 then
    (muestrear ev.1.1 ev.1.2 st.1,
     if (ev.2 <=? 1000)%Z then promover ev.1.1 (clasifica ev.1.2) st.2 else st.2)
  else st.

Definition procesar_fila (row : list valor) (headers : list string)
    (st : acumulado) (n : Z) : acumulado :=
  fold_left (procesar_celda admite clasifica headers n) (enumerate row) st.



End Pasada_definiciones.

(** The two row loops are instances of the same pass. *)
Definition clasifica_csv (val : valor) : string := _detectar_tipo (py_str val).

(** The invariant of [valores_unicos]: at most [MUESTRA_VALORES] samples
    per column, each the first 50 characters of [str(v)] for a value [v]
    that [origen] allows for the column. *)
Definition muestras_ok (origen : string -> valor -> Prop)
    (vu : gmap string (gset string)) : Prop :=
  forall col X, vu !! col = Some X ->
    (size X <= MUESTRA_VALORES)%nat /\
    forall s, s ∈ X ->
      (String.length s <= 50)%nat /\
      exists v, origen col v /\ s = Py.slice_to 50 (py_str v).

(** The data of a Parquet result whose file could be opened. *)
Definition parquet_muestras (pf : archivo_parquet) : gmap string (gset string) :=
  match iter_batches pf (Z.min 1000 CHUNK_SIZE) with
  | (b :: _, _) =>
      muestrear_batch b (map fst (schema_arrow pf))
        (acumulado_inicial (map fst (schema_arrow pf))).1
  | ([], _) => (acumulado_inicial (map fst (schema_arrow pf))).1
  end.

(** Two batches that agree on the first ten values of every column, and
    fail on the same columns. *)
Definition mismo_inicio (b b' : batch) : Prop :=
  forall col,
    match b col, b' col with
    | inr column, inr column' =>
        take (MUESTRA_VALORES * 2) column = take (MUESTRA_VALORES * 2) column'
    | inl _, inl _ => True
    | _, _ => False
    end.




(** The texts of column [col] that reach the sampler, in row order:
    [str(val)[:50]] for every admitted value of the column. *)
Definition textos_muestreables (admite : valor -> bool) (col : string)
    (evs : list evento) : list string :=
  omap (fun ev : evento =>
          if String.eqb ev.1.1 col && admite ev.1.2
          then Some (Py.slice_to 50 (py_str ev.1.2)) else None) evs.

(** The elements of [l] that are not in [S], each once, in the order of
    their first occurrence. *)
Fixpoint nuevos (S : gset string) (l : list string) : list string :=
  match l with
  | [] => []
  | x :: r => if decide (x ∈ S) then nuevos S r else x :: nuevos ({[ x ]} ∪ S) r
  end.

(** The extension of the report written for [formato]: PDF unless the
    format is txt or csv, in any case of the letters. *)
Definition extension_reporte (formato : string) : string :=
  if String.eqb (Py.lower formato) "txt" then ".txt"
  else if String.eqb (Py.lower formato) "csv" then ".csv"
  else ".pdf".

(** * Properties *)

(** ** The order of binary64 values *)

Module PyFloatFacts.
Import PyFloat.

Lemma ltb_lex (x y : t) :
  is_nan x = false -> is_nan y = false ->
  (ltb x y = true <-> lex (clave x) (clave y)).
Proof.
  unfold ltb, SFltb, lex.
  destruct x as [sx|sx| |sx mx ex], y as [sy|sy| |sy my ey];
    try discriminate; intros _ _;
    try destruct sx; try destruct sy; simpl;
    try (split; [discriminate | lia]);
    try (split; [intros _; lia | reflexivity]).
  - change (Pos.compare_cont Eq mx my) with (Pos.compare mx my).
    destruct (Z.compare_spec ex ey), (Pos.compare_spec mx my); simpl;
      split; try discriminate; try reflexivity; try lia.
  - change (Pos.compare_cont Eq mx my) with (Pos.compare mx my).
    destruct (Z.compare_spec ex ey), (Pos.compare_spec mx my); simpl;
      split; try discriminate; try reflexivity; try lia.
Qed.

Lemma ltb_not_nan (x y : t) :
  ltb x y = true -> is_nan x = false /\ is_nan y = false.
Proof.
  unfold ltb, SFltb.
  destruct x as [sx|sx| |sx mx ex], y as [sy|sy| |sy my ey];
    simpl; try discriminate; auto.
Qed.

Lemma ltb_trans (x y z : t) :
  ltb x y = true -> ltb y z = true -> ltb x z = true.
Proof.
  intros Hxy Hyz.
  destruct (ltb_not_nan _ _ Hxy) as [Nx Ny].
  destruct (ltb_not_nan _ _ Hyz) as [_ Nz].
  apply ltb_lex in Hxy; auto. apply ltb_lex in Hyz; auto.
  apply ltb_lex; auto. unfold lex in *. lia.
Qed.

Lemma ltb_asym (x y : t) : ltb x y = true -> ltb y x = false.
Proof.
  intros Hxy. destruct (ltb_not_nan _ _ Hxy) as [Nx Ny].
  destruct (ltb y x) eqn:Hyx; auto.
  apply ltb_lex in Hxy; auto. apply ltb_lex in Hyx; auto.
  unfold lex in *. lia.
Qed.

(** [x <= y < z] gives [x < z], where [x <= y] is read as "not [y < x]". *)
Lemma not_ltb_ltb_trans (x y z : t) :
  is_nan x = false -> ltb y x = false -> ltb y z = true -> ltb x z = true.
Proof.
  intros Nx Hyx Hyz. destruct (ltb_not_nan _ _ Hyz) as [Ny Nz].
  apply ltb_lex in Hyz; auto. apply ltb_lex; auto.
  assert (~ lex (clave y) (clave x)) as Hn.
  { intros H. apply ltb_lex in H; auto. congruence. }
  unfold lex in *. lia.
Qed.

Lemma leb_lex (x y : t) :
  is_nan x = false -> is_nan y = false ->
  (leb x y = true <-> lex_le (clave x) (clave y)).
Proof.
  unfold leb, SFleb, lex_le.
  destruct x as [sx|sx| |sx mx ex], y as [sy|sy| |sy my ey];
    try discriminate; intros _ _;
    try destruct sx; try destruct sy; simpl;
    try (split; [discriminate | lia]);
    try (split; [intros _; lia | reflexivity]).
  - change (Pos.compare_cont Eq mx my) with (Pos.compare mx my).
    destruct (Z.compare_spec ex ey), (Pos.compare_spec mx my); simpl;
      split; try discriminate; try reflexivity; try lia.
  - change (Pos.compare_cont Eq mx my) with (Pos.compare mx my).
    destruct (Z.compare_spec ex ey), (Pos.compare_spec mx my); simpl;
      split; try discriminate; try reflexivity; try lia.
Qed.

(** On numbers, "not [x < y]" is [y <= x]. *)
Lemma not_ltb_leb (x y : t) :
  is_nan x = false -> is_nan y = false -> ltb x y = false -> leb y x = true.
Proof.
  intros Nx Ny H. apply leb_lex; auto.
  assert (~ lex (clave x) (clave y)) as Hn.
  { intros Hl. apply ltb_lex in Hl; auto. congruence. }
  unfold lex, lex_le in *. lia.
Qed.

Lemma ltb_irrefl (x : t) : ltb x x = false.
Proof.
  destruct (ltb x x) eqn:E; [|reflexivity].
  pose proof (ltb_asym _ _ E). congruence.
Qed.

(** *** Signs *)

Lemma no_positivo_leb (x : t) : no_positivo x -> leb x f0_0 = true.
Proof. destruct x as [s|[]| |[] m e]; simpl; intros H; try contradiction; reflexivity. Qed.

Lemma no_positivo_ltb (x y : t) : no_positivo x -> positivo_finito y -> ltb y x = false.
Proof.
  destruct x as [s|[]| |[] m e], y as [sy|sy| |[] my ey];
    simpl; intros H1 H2; try contradiction; reflexivity.
Qed.

Lemma shr_1_nonneg (mrs : shr_record) : (0 <= shr_m mrs -> 0 <= shr_m (shr_1 mrs))%Z.
Proof.
  destruct mrs as [m r s]; simpl. destruct m as [|p|p]; simpl; try lia.
  - destruct p; simpl; lia.
Qed.

Lemma iter_pos_nonneg (p : positive) (mrs : shr_record) :
  (0 <= shr_m mrs -> 0 <= shr_m (SpecFloat.iter_pos shr_1 p mrs))%Z.
Proof.
  revert mrs. induction p as [p IH|p IH|]; intros mrs H; simpl.
  - apply IH, IH, shr_1_nonneg, H.
  - apply IH, IH, H.
  - apply shr_1_nonneg, H.
Qed.

Lemma shr_fexp_nonneg (m e : Z) (l : location) :
  (0 <= m -> 0 <= shr_m (shr_fexp prec emax m e l).1)%Z.
Proof.
  intros H. unfold shr_fexp, shr.
  assert (shr_m (shr_record_of_loc m l) = m) as Hm by (destruct l as [|[]]; reflexivity).
  destruct (fexp prec emax (Zdigits2 m + e) - e)%Z; simpl; try lia.
  apply iter_pos_nonneg. lia.
Qed.

Lemma round_nearest_even_nonneg (m : Z) (l : location) :
  (0 <= m -> 0 <= round_nearest_even m l)%Z.
Proof.
  intros H. destruct l as [|[]]; simpl; try lia. destruct (Z.even m); lia.
Qed.

(** Rounding a non-negative mantissa keeps the sign it is given. *)
Lemma binary_round_aux_sign (s : bool) (m e : Z) (l : location) :
  (0 <= m)%Z ->
  match binary_round_aux prec emax s m e l with
  | S754_zero s' | S754_infinity s' | S754_finite s' _ _ => s' = s
  | S754_nan => False
  end.
Proof.
  intros H. unfold binary_round_aux.
  pose proof (shr_fexp_nonneg m e l H) as H1.
  destruct (shr_fexp prec emax m e l) as [mrs' e']. simpl in H1.
  pose proof (shr_fexp_nonneg _ e' loc_Exact
                (round_nearest_even_nonneg _ (loc_of_shr_record mrs') H1)) as H2.
  destruct (shr_fexp prec emax _ e' loc_Exact) as [mrs'' e'']. simpl in H2.
  destruct (shr_m mrs'') as [|p|p]; try lia; auto.
  destruct (e'' <=? emax - prec)%Z; auto.
Qed.

Lemma sub_no_positivo (x y : t) :
  no_positivo x -> positivo_finito y -> no_positivo (sub x y).
Proof.
  destruct x as [s|[]| |[] mx ex], y as [sy|sy| |[] my ey];
    simpl; intros H1 H2; try contradiction; auto.
  unfold sub, SFsub, binary_normalize, cond_Zopp.
  destruct (shl_align mx ex (Z.min ex ey)) as [ax ex'].
  destruct (shl_align my ey (Z.min ex ey)) as [ay ey']. simpl.
  unfold binary_round.
  destruct (shl_align _ _ _) as [mz ez].
  pose proof (binary_round_aux_sign true (Zpos mz) ez loc_Exact ltac:(lia)) as Hs.
  destruct (binary_round_aux _ _ _ _ _ _) as [s'|s'| |s' m' e']; subst; simpl; auto.
Qed.

Lemma div_no_positivo (x y : t) :
  no_positivo x -> positivo_finito y -> no_positivo (div x y).
Proof.
  destruct x as [s|[]| |[] mx ex], y as [sy|sy| |[] my ey];
    simpl; intros H1 H2; try contradiction; auto.
  unfold div, SFdiv, SFdiv_core_binary.
  set (e' := Z.min _ _). set (m' := match (ex - ey - e')%Z with Z0 => _ | _ => _ end).
  assert (0 <= m')%Z as Hm'.
  { unfold m'. destruct (ex - ey - e')%Z; try lia. apply Z.shiftl_nonneg. lia. }
  pose proof (Z_div_mod m' (Zpos my) ltac:(lia)) as Hdiv.
  destruct (Z.div_eucl m' (Zpos my)) as [q r].
  assert (0 <= q)%Z as Hq by nia.
  pose proof (binary_round_aux_sign (xorb true false) q e' (new_location (Zpos my) r) Hq) as Hs.
  destruct (binary_round_aux _ _ _ _ _ _) as [s'|s'| |s' m'' e'']; subst; simpl; auto.
Qed.

(** *** Conversion of a count *)

Lemma digits2_pos_iter (p n : positive) :
  digits2_pos (Pos.iter xO p n) = (digits2_pos p + n)%positive.
Proof.
  induction n as [|n IH] using Pos.peano_ind.
  - simpl. lia.
  - rewrite Pos.iter_succ. simpl. rewrite IH. lia.
Qed.

Lemma digits2_pos_bound (p : positive) (n : Z) :
  (0 <= n -> Zpos p < 2 ^ n -> Zpos (digits2_pos p) <= n)%Z.
Proof.
  revert n. induction p as [q IH|q IH|]; intros n Hn Hp; simpl;
    (destruct (Z.eq_dec n 0%Z) as [->|]; [simpl in Hp; lia|]); try lia;
    replace n with (Z.succ (n - 1)%Z) in Hp by lia;
    rewrite Z.pow_succ_r in Hp by lia;
    specialize (IH (n - 1)%Z ltac:(lia) ltac:(lia)); lia.
Qed.

(** A mantissa that already has its canonical exponent is kept as it is. *)
Lemma binary_round_aux_exact (p mz : positive) (ez : Z) :
  (Zpos (digits2_pos p) <= 53)%Z ->
  (Zpos (digits2_pos mz) + ez = Zpos (digits2_pos p))%Z ->
  (ez = Zpos (digits2_pos p) - 53)%Z ->
  binary_round_aux prec emax false (Zpos mz) ez loc_Exact = S754_finite false mz ez.
Proof.
  intros Hd H1 H2.
  assert (fexp prec emax (Zpos (digits2_pos p)) - ez = 0)%Z as Hz.
  { unfold fexp, emin, prec, emax. lia. }
  unfold binary_round_aux, shr_fexp. simpl Zdigits2.
  rewrite H1, Hz. simpl. rewrite H1, Hz. simpl.
  assert ((ez <=? emax - prec)%Z = true) as ->; [|reflexivity].
  apply Z.leb_le. unfold emax, prec. lia.
Qed.

(** [float(k)] is a positive finite number for a count [0 < k < 2^53]. *)
Lemma of_int_positivo (k : Z) :
  (0 < k < 2 ^ 53)%Z -> positivo_finito (of_int k).
Proof.
  intros [Hk0 Hk]. destruct k as [|p|p]; try lia.
  pose proof (digits2_pos_bound p 53 ltac:(lia) Hk) as Hd.
  unfold of_int, binary_normalize, binary_round.
  assert (fexp prec emax (Zpos (digits2_pos p) + 0) = Zpos (digits2_pos p) - 53)%Z as ->.
  { unfold fexp, emin, prec, emax. lia. }
  unfold shl_align.
  destruct (Zpos (digits2_pos p) - 53 - 0)%Z as [|dd|dd] eqn:E; try lia.
  - rewrite (binary_round_aux_exact p); [exact I|lia..].
  - rewrite (binary_round_aux_exact p); [exact I|try lia..].
    rewrite digits2_pos_iter. lia.
Qed.

End PyFloatFacts.

(** ** HeaderDetector: the score of a row *)

Section Puntuacion.
Import PyFloat PyFloatFacts.

(** In a row of text cells the guard counts the cells that are not the
    empty string. *)
Lemma celdas_con_valor_textos (textos : list string) :
  celdas_con_valor (map VStr textos)
  = length (List.filter (fun s => negb (String.eqb s "")) textos).
Proof.
  unfold celdas_con_valor. induction textos as [|s l IH]; [reflexivity|].
  cbn [map List.filter py_bool]. destruct (negb (String.eqb s "")); cbn [length]; lia.
Qed.

(** The guard of [_es_encabezado_valido]: fewer than [min_columnas] cells
    with a true value. *)
Lemma rechazo_por_guarda (fila : list valor) (min_columnas : nat) :
  (celdas_con_valor fila < min_columnas)%nat ->
  _es_encabezado_valido fila min_columnas = (false, f0_0).
Proof.
  intros H. unfold _es_encabezado_valido.
  apply Nat.ltb_lt in H. rewrite H, orb_true_r. reflexivity.
Qed.

Lemma es_header_es_umbral (fila : list valor) (min_columnas : nat) :
  (_es_encabezado_valido fila min_columnas).1
  = ltb f0_1 (_es_encabezado_valido fila min_columnas).2.
Proof.
  unfold _es_encabezado_valido.
  destruct (bool_decide (fila = []) || _); [reflexivity|].
  destruct (fold_left puntuar_celda fila (f0_0, 0%Z)) as [score cv]. reflexivity.
Qed.

Lemma puntuar_numericas (fila : list valor) (st : t * Z) :
  todas_numericas fila ->
  no_positivo st.1 ->
  no_positivo (fold_left puntuar_celda fila st).1 /\
  (st.2 <= (fold_left puntuar_celda fila st).2 <= st.2 + Z.of_nat (length fila))%Z.
Proof.
  revert st. induction fila as [|c l IH]; intros [score cv] Hnum Hs.
  - simpl. split; [exact Hs|lia].
  - assert (todas_numericas l) as Hl by (intros x Hx; apply Hnum; right; exact Hx).
    assert (no_positivo (puntuar_celda (score, cv) c).1 /\
            (cv <= (puntuar_celda (score, cv) c).2 <= cv + 1)%Z) as [Hs' Hcv].
    { unfold puntuar_celda. destruct (celda_en_blanco c) eqn:Eb.
      - simpl. split; [exact Hs|lia].
      - rewrite (Hnum c (or_introl eq_refl) Eb). simpl.
        split; [apply sub_no_positivo; [exact Hs|exact I]|lia]. }
    cbn [fold_left length].
    destruct (puntuar_celda (score, cv) c) as [score' cv'].
    destruct (IH (score', cv') Hl Hs') as [H1 H2].
    simpl in *. split; [exact H1|lia].
Qed.

Lemma puntuacion_numericas (fila : list valor) (min_columnas : nat) :
  (Z.of_nat (length fila) < 2 ^ 53)%Z ->
  todas_numericas fila ->
  no_positivo (_es_encabezado_valido fila min_columnas).2.
Proof.
  intros Hlen Hnum. unfold _es_encabezado_valido.
  destruct (bool_decide (fila = []) || _); [exact I|].
  destruct (puntuar_numericas fila (f0_0, 0%Z) Hnum I) as [H1 H2].
  destruct (fold_left puntuar_celda fila (f0_0, 0%Z)) as [score cv].
  simpl in H1, H2. cbv zeta.
  assert (no_positivo (if (0 <? cv)%Z then div score (of_int cv) else score)) as H3.
  { destruct (0 <? cv)%Z eqn:E; [|exact H1].
    apply Z.ltb_lt in E. apply div_no_positivo; [exact H1|].
    apply of_int_positivo. lia. }
  simpl. destruct (ltb _ f0_5); [|exact H3].
  apply sub_no_positivo; [exact H3|exact I].
Qed.

End Puntuacion.

(** C5 (as the code has it). The header scorer rejects, with score 0.0, a
    row with fewer than two cells that have a true value, which is what
    its guard counts: in a row of text cells these are the cells other
    than the empty string, so a cell of white space counts for the guard
    although the scoring skips it as blank.  A row (of fewer than 2^53
    cells) all of whose cells that are not blank are pure numbers gets a
    score that is at most 0 and is not a header; and in every case a row is
    a header exactly when its final score is above 0.1. *)
Theorem C5_header_scorer (fila : list valor) :
  ((celdas_con_valor fila < 2)%nat ->
   _es_encabezado_valido fila 2 = (false, PyFloat.f0_0)) /\
  (forall textos : list string,
     celdas_con_valor (map VStr textos)
     = length (List.filter (fun s => negb (String.eqb s "")) textos)) /\
  ((Z.of_nat (length fila) < 2 ^ 53)%Z ->
   todas_numericas fila ->
   PyFloat.leb (_es_encabezado_valido fila 2).2 PyFloat.f0_0 = true /\
   (_es_encabezado_valido fila 2).1 = false) /\
  (_es_encabezado_valido fila 2).1
  = PyFloat.ltb PyFloat.f0_1 (_es_encabezado_valido fila 2).2.
Proof.
  split; [|split; [|split]].
  - apply rechazo_por_guarda.
  - apply celdas_con_valor_textos.
  - intros Hlen Hnum.
    pose proof (puntuacion_numericas fila 2 Hlen Hnum) as Hs. split.
    + apply PyFloatFacts.no_positivo_leb, Hs.
    + rewrite es_header_es_umbral.
      apply PyFloatFacts.no_positivo_ltb; [exact Hs|exact I].
  - apply es_header_es_umbral.
Qed.

Lemma C5_header_scorer_witness :
  (_es_encabezado_valido [VStr "id"; VStr ""; VNone] 2 = (false, PyFloat.f0_0)) /\
  (let fila := [VStr "1"; VStr "2,5"; VStr " "] in
   PyFloat.leb (_es_encabezado_valido fila 2).2 PyFloat.f0_0 = true /\
   (_es_encabezado_valido fila 2).1 = false).
Proof.
  split.
  - apply (proj1 (C5_header_scorer [VStr "id"; VStr ""; VNone])).
    vm_compute. lia.
  - apply (proj1 (proj2 (proj2 (C5_header_scorer [VStr "1"; VStr "2,5"; VStr " "])))).
    + reflexivity.
    + intros c [<-|[<-|[<-|[]]]]; vm_compute; congruence.
Defined.

(** The claim as stated fails when the cells are counted as the scoring
    loop counts them: a row with one cell that is not blank and one cell of
    white space passes the guard and is a header, with score 1.0; a row of
    two cells of white space is not a header but its score is -0.5, not
    0. *)
Lemma C5_counterexample :
  (let fila := [VStr "id"; VStr " "] in
   (celdas_no_en_blanco fila < 2)%nat /\
   _es_encabezado_valido fila 2 = (true, PyFloat.of_int 1)) /\
  (let fila := [VStr " "; VStr " "] in
   (celdas_no_en_blanco fila < 2)%nat /\
   _es_encabezado_valido fila 2 = (false, PyFloat.lit (-1) 2)) /\
  ~ (forall fila,
       (celdas_no_en_blanco fila < 2)%nat ->
       _es_encabezado_valido fila 2 = (false, PyFloat.f0_0)).
Proof.
  split; [|split].
  - split; [vm_compute; lia|vm_compute; reflexivity].
  - split; [vm_compute; lia|vm_compute; reflexivity].
  - intros H. specialize (H [VStr "id"; VStr " "]).
    assert (celdas_no_en_blanco [VStr "id"; VStr " "] < 2)%nat as Hc by (vm_compute; lia).
    specialize (H Hc). vm_compute in H. discriminate H.
Qed.

(** ** HeaderDetector: the choice of the row *)

Section Busqueda.
Import PyFloat PyFloatFacts.

Lemma paso_busqueda_eq (m : t) (i : nat) (f : list valor) (idx : nat) (fila : list valor) :
  paso_busqueda (m, i, f) (idx, fila)
  = if es_elegible fila && ltb m (puntaje fila) then (puntaje fila, idx, fila) else (m, i, f).
Proof.
  unfold paso_busqueda, es_elegible, puntaje.
  destruct (_es_encabezado_valido fila 2) as [e s]. reflexivity.
Qed.

Lemma elegible_umbral (fila : list valor) :
  es_elegible fila = true -> ltb f0_1 (puntaje fila) = true.
Proof. unfold es_elegible, puntaje. rewrite es_header_es_umbral. auto. Qed.

Lemma elegible_no_nan (fila : list valor) :
  es_elegible fila = true -> is_nan (puntaje fila) = false.
Proof. intros H. apply elegible_umbral, ltb_not_nan in H. tauto. Qed.

Lemma elegible_no_vacia (fila : list valor) : es_elegible fila = true -> fila <> [].
Proof. intros H ->. discriminate H. Qed.

(** The search loop started at index [k] with best score [m0]: either no
    row beats [m0] and the state is unchanged, or the state holds the
    first row of highest score. *)
Lemma busqueda_spec (l : list (list valor)) (k : nat) (m0 : t) (i0 : nat) (f0 : list valor) :
  let r := fold_left paso_busqueda (combine (seq k (length l)) l) (m0, i0, f0) in
  (r = (m0, i0, f0) /\
   forall j fila, l !! j = Some fila -> es_elegible fila = true ->
     ltb m0 (puntaje fila) = false)
  \/
  (exists j fila,
     l !! j = Some fila /\ r = (puntaje fila, (k + j)%nat, fila) /\
     es_elegible fila = true /\ ltb m0 (puntaje fila) = true /\
     forall j' f', l !! j' = Some f' -> es_elegible f' = true ->
       ltb (puntaje fila) (puntaje f') = false /\
       ((j' < j)%nat -> ltb (puntaje f') (puntaje fila) = true)).
Proof.
  revert k m0 i0 f0. induction l as [|x l IH]; intros k m0 i0 f0; cbn zeta.
  - left. split; [reflexivity|]. intros j fila H. discriminate H.
  - cbn [length seq combine fold_left]. rewrite paso_busqueda_eq.
    destruct (es_elegible x && ltb m0 (puntaje x)) eqn:Etoma.
    + apply andb_true_iff in Etoma as [Ex Hx]. right.
      destruct (IH (S k) (puntaje x) k x) as [[Hr Hno]|(j & fila & Hj & Hr & He & Hlt & Hmax)].
      * exists 0%nat, x. rewrite Hr, Nat.add_0_r. repeat split; auto; try lia.
        destruct j' as [|j']; simpl in H.
        -- injection H as <-. apply ltb_irrefl.
        -- eapply Hno; eauto.
      * exists (S j), fila. rewrite Hr. repeat split; auto.
        -- f_equal. f_equal. lia.
        -- eapply ltb_trans; eauto.
        -- destruct j' as [|j']; simpl in H.
           ++ injection H as <-. apply ltb_asym, Hlt.
           ++ eapply Hmax; eauto.
        -- intros Hj'. destruct j' as [|j']; simpl in H.
           ++ injection H as <-. exact Hlt.
           ++ eapply Hmax; eauto. lia.
    + assert (es_elegible x = true -> ltb m0 (puntaje x) = false) as Hx.
      { intros Ex. rewrite Ex in Etoma. exact Etoma. }
      destruct (IH (S k) m0 i0 f0) as [[Hr Hno]|(j & fila & Hj & Hr & He & Hlt & Hmax)].
      * left. split; [exact Hr|]. intros [|j] fila H Hf; simpl in H.
        -- injection H as <-. auto.
        -- eapply Hno; eauto.
      * right. exists (S j), fila. rewrite Hr. repeat split; auto.
        -- f_equal. f_equal. lia.
        -- destruct j' as [|j']; simpl in H.
           ++ injection H as <-. apply ltb_asym.
              eapply not_ltb_ltb_trans; eauto using elegible_no_nan.
           ++ eapply Hmax; eauto.
        -- intros Hj'. destruct j' as [|j']; simpl in H.
           ++ injection H as <-.
              eapply not_ltb_ltb_trans; eauto using elegible_no_nan.
           ++ eapply Hmax; eauto. lia.
Qed.

Lemma elegible_supera_inicial (fila : list valor) :
  es_elegible fila = true -> ltb fm1 (puntaje fila) = true.
Proof.
  intros H. apply (ltb_trans fm1 f0_1); [reflexivity|apply elegible_umbral, H].
Qed.

Lemma _buscar_fila_encabezado_eq (filas : list (list valor)) :
  _buscar_fila_encabezado filas
  = match (busqueda_final filas).2, filas with
    | [], primera :: _ => (0%nat, map limpiar_encabezado (enumerate primera))
    | _, _ => ((busqueda_final filas).1.2,
               map limpiar_encabezado (enumerate (busqueda_final filas).2))
    end.
Proof.
  unfold _buscar_fila_encabezado. fold (busqueda_final filas).
  destruct (busqueda_final filas) as [[m i] f].
  destruct f, filas; reflexivity.
Qed.

(** When some candidate row is eligible, the loop ends on the first row
    of highest score. *)
Lemma busqueda_con_elegible (filas : list (list valor)) :
  let candidatas := take MAX_FILAS_BUSQUEDA_HEADER filas in
  (exists j fila, candidatas !! j = Some fila /\ es_elegible fila = true) ->
  exists j fila,
    candidatas !! j = Some fila /\
    busqueda_final filas = (puntaje fila, j, fila) /\
    es_elegible fila = true /\
    forall j' f', candidatas !! j' = Some f' -> es_elegible f' = true ->
      ltb (puntaje fila) (puntaje f') = false /\
      ((j' < j)%nat -> ltb (puntaje f') (puntaje fila) = true).
Proof.
  intros candidatas (j0 & fila0 & Hj0 & He0).
  destruct (busqueda_spec candidatas 0 fm1 0%nat [])
    as [[_ Hno]|(j & fila & Hj & Hr & He & _ & Hmax)].
  - pose proof (Hno j0 fila0 Hj0 He0) as H.
    rewrite (elegible_supera_inicial fila0 He0) in H. discriminate H.
  - exists j, fila. repeat split; auto; eapply Hmax; eauto.
Qed.

(** When no candidate row is eligible, the loop leaves its state as it
    was. *)
Lemma busqueda_sin_elegible (filas : list (list valor)) :
  (forall j fila, take MAX_FILAS_BUSQUEDA_HEADER filas !! j = Some fila ->
     es_elegible fila = false) ->
  busqueda_final filas = (fm1, 0%nat, []).
Proof.
  intros Hno.
  destruct (busqueda_spec (take MAX_FILAS_BUSQUEDA_HEADER filas) 0 fm1 0%nat [])
    as [[Hr _]|(j & fila & Hj & _ & He & _)].
  - exact Hr.
  - rewrite (Hno j fila Hj) in He. discriminate He.
Qed.

(** The index returned lies among the candidate rows. *)
Lemma _buscar_fila_encabezado_idx (filas : list (list valor)) :
  filas <> [] ->
  ((_buscar_fila_encabezado filas).1
   < Nat.min MAX_FILAS_BUSQUEDA_HEADER (length filas))%nat.
Proof.
  intros Hne. rewrite _buscar_fila_encabezado_eq.
  assert (0 < Nat.min MAX_FILAS_BUSQUEDA_HEADER (length filas))%nat as Hpos.
  { destruct filas; [congruence|]. unfold MAX_FILAS_BUSQUEDA_HEADER.
    cbn [length]. lia. }
  destruct (busqueda_spec (take MAX_FILAS_BUSQUEDA_HEADER filas) 0 fm1 0%nat [])
    as [[Hr _]|(j & fila & Hj & Hr & _)];
    fold (enumerate (take MAX_FILAS_BUSQUEDA_HEADER filas)) in Hr;
    fold (busqueda_final filas) in Hr; rewrite Hr; cbn [fst snd].
  - destruct filas; [congruence|]. exact Hpos.
  - apply lookup_lt_Some in Hj. rewrite length_take in Hj.
    destruct fila, filas; cbn [fst snd Nat.add]; lia.
Qed.

End Busqueda.

(** C6. Among the first 20 rows, header selection picks the eligible row
    of highest score, the first one on a tie; when no row is eligible it
    takes row 0, whatever its score. *)
Theorem C6_header_selection (filas : list (list valor)) :
  let candidatas := take MAX_FILAS_BUSQUEDA_HEADER filas in
  let idx := (_buscar_fila_encabezado filas).1 in
  let headers := (_buscar_fila_encabezado filas).2 in
  ((exists j fila, candidatas !! j = Some fila /\ es_elegible fila = true) ->
   exists fila,
     candidatas !! idx = Some fila /\ es_elegible fila = true /\
     headers = map limpiar_encabezado (enumerate fila) /\
     forall j f, candidatas !! j = Some f -> es_elegible f = true ->
       PyFloat.leb (puntaje f) (puntaje fila) = true /\
       ((j < idx)%nat -> PyFloat.ltb (puntaje f) (puntaje fila) = true)) /\
  ((forall j fila, candidatas !! j = Some fila -> es_elegible fila = false) ->
   idx = 0%nat /\
   headers = map limpiar_encabezado (enumerate (default [] (head filas)))).
Proof.
  cbn zeta. rewrite _buscar_fila_encabezado_eq. split.
  - intros Hex.
    destruct (busqueda_con_elegible filas Hex) as (j & fila & Hj & Hr & He & Hmax).
    rewrite Hr. cbn [fst snd].
    pose proof (elegible_no_vacia fila He) as Hne.
    exists fila.
    assert (forall j' f', take MAX_FILAS_BUSQUEDA_HEADER filas !! j' = Some f' ->
              es_elegible f' = true ->
              PyFloat.leb (puntaje f') (puntaje fila) = true /\
              ((j' < j)%nat -> PyFloat.ltb (puntaje f') (puntaje fila) = true)) as Hmax'.
    { intros j' f' Hj' He'. destruct (Hmax j' f' Hj' He') as [H1 H2]. split; [|exact H2].
      apply PyFloatFacts.not_ltb_leb; auto using elegible_no_nan. }
    destruct fila as [|c fila]; [congruence|].
    destruct filas;
      (split; [exact Hj|split; [exact He|split; [reflexivity|exact Hmax']]]).
  - intros Hno. rewrite (busqueda_sin_elegible filas Hno). cbn [fst snd].
    destruct filas; split; reflexivity.
Qed.

(** ** The analyzers as one pass over the data rows *)

Lemma procesar_filas_app procesar (a b : list (list valor)) headers st n :
  procesar_filas procesar (a ++ b)%list headers st n
  = procesar_filas procesar b headers
      (procesar_filas procesar a headers st n).1
      (procesar_filas procesar a headers st n).2.
Proof.
  revert st n. induction a as [|x a IH]; intros st n; simpl; [reflexivity|apply IH].
Qed.

Lemma procesar_filas_cuenta procesar (rows : list (list valor)) headers st n :
  (procesar_filas procesar rows headers st n).2 = (n + Z.of_nat (length rows))%Z.
Proof.
  revert st n. induction rows as [|x a IH]; intros st n; simpl; [lia|].
  rewrite IH. lia.
Qed.

Lemma analizar_csv_pasada (ruta : string) (f : entrada_csv) (tam : Z)
    (filas : list (list string)) (fin : option excepcion) :
  csv_getsize f = inr tam ->
  csv_reader f = inr (filas, fin) ->
  filas <> [] ->
  (fin = None \/ MAX_FILAS_BUSQUEDA_HEADER + 1 <= length filas)%nat ->
  analizar_csv ruta f
  = inr (resultado_csv ruta tam
           {| columnas := (csv_pasada filas).1.2;
              total_filas := match fin with Some _ => 0%Z | None => (csv_pasada filas).2.2 end;
              muestra_valores := match fin with Some _ => ∅ | None => (csv_pasada filas).2.1.1 end;
              tipos_detectados := (csv_pasada filas).2.1.2;
              fila_encabezado := Some (Z.of_nat (csv_pasada filas).1.1 + 1)%Z |}
           fin).
Proof.
  intros Hsz Hrd Hne Hfin. unfold analizar_csv, csv_pasada. rewrite Hsz, Hrd.
  set (filas_v := map (map VStr) filas).
  assert (map (map VStr) (take (MAX_FILAS_BUSQUEDA_HEADER + 1) filas)
          = take (MAX_FILAS_BUSQUEDA_HEADER + 1) filas_v) as Htake.
  { unfold filas_v. rewrite <- fmap_take. reflexivity. }
  rewrite Htake.
  assert (take (MAX_FILAS_BUSQUEDA_HEADER + 1) filas_v <> []) as Hne'.
  { destruct filas; [congruence|]. discriminate. }
  pose proof (_buscar_fila_encabezado_idx _ Hne') as Hidx.
  destruct (_buscar_fila_encabezado (take (MAX_FILAS_BUSQUEDA_HEADER + 1) filas_v))
    as [idx headers]. cbn [fst snd] in *.
  assert (drop (idx + 1) filas_v
          = (drop (idx + 1) (take (MAX_FILAS_BUSQUEDA_HEADER + 1) filas_v)
             ++ map (map VStr) (drop (MAX_FILAS_BUSQUEDA_HEADER + 1) filas))%list) as Hsplit.
  { rewrite <- (take_drop (MAX_FILAS_BUSQUEDA_HEADER + 1) filas_v) at 1.
    rewrite drop_app_le by (rewrite length_take in *; unfold MAX_FILAS_BUSQUEDA_HEADER in *; lia).
    unfold filas_v. rewrite <- fmap_drop. reflexivity. }
  rewrite Hsplit, procesar_filas_app.
  destruct (procesar_filas _procesar_fila_datos
              (drop (idx + 1) (take (MAX_FILAS_BUSQUEDA_HEADER + 1) filas_v))
              headers (acumulado_inicial headers) 0%Z) as [st1 n1].
  cbn [fst snd].
  destruct (procesar_filas _procesar_fila_datos
              (map (map VStr) (drop (MAX_FILAS_BUSQUEDA_HEADER + 1) filas))
              headers st1 n1) as [st2 n2].
  cbn [fst snd].
  destruct (take (MAX_FILAS_BUSQUEDA_HEADER + 1) filas_v) eqn:Et; [congruence|].
  destruct fin as [e|];
    destruct (length filas <? MAX_FILAS_BUSQUEDA_HEADER + 1)%nat eqn:E;
    try reflexivity.
  apply Nat.ltb_lt in E. destruct Hfin as [?|Hlen]; [discriminate|lia].
Qed.

Lemma analizar_csv_casos (ruta : string) (f : entrada_csv) (r : resultado) :
  analizar_csv ruta f = inr r ->
  exists tam, csv_getsize f = inr tam /\
    ((exists err, r = resultado_csv ruta tam (datos_vacios (Some 1%Z)) err) \/
     (exists filas fin,
        csv_reader f = inr (filas, fin) /\ filas <> [] /\
        (fin = None \/ MAX_FILAS_BUSQUEDA_HEADER + 1 <= length filas)%nat /\
        r = resultado_csv ruta tam
              {| columnas := (csv_pasada filas).1.2;
                 total_filas := match fin with Some _ => 0%Z | None => (csv_pasada filas).2.2 end;
                 muestra_valores :=
                   match fin with Some _ => ∅ | None => (csv_pasada filas).2.1.1 end;
                 tipos_detectados := (csv_pasada filas).2.1.2;
                 fila_encabezado := Some (Z.of_nat (csv_pasada filas).1.1 + 1)%Z |}
              fin)).
Proof.
  intros H. destruct (csv_getsize f) as [e|tam] eqn:Hsz.
  { unfold analizar_csv in H. rewrite Hsz in H. discriminate H. }
  exists tam. split; [reflexivity|].
  destruct (csv_reader f) as [e|[filas fin]] eqn:Hrd.
  { left. exists (Some e). unfold analizar_csv in H. rewrite Hsz, Hrd in H. congruence. }
  destruct filas as [|fila0 filas].
  { left. unfold analizar_csv in H. rewrite Hsz, Hrd in H.
    destruct fin as [e|]; [exists (Some e)|exists None]; simpl in H; congruence. }
  destruct fin as [e|].
  - destruct (length (fila0 :: filas) <? MAX_FILAS_BUSQUEDA_HEADER + 1)%nat eqn:E.
    + left. exists (Some e). unfold analizar_csv in H. rewrite Hsz, Hrd, E in H. congruence.
    + right. exists (fila0 :: filas), (Some e). apply Nat.ltb_ge in E.
      rewrite (analizar_csv_pasada ruta f tam (fila0 :: filas) (Some e)) in H; auto.
      repeat split; auto; congruence.
  - right. exists (fila0 :: filas), None.
    rewrite (analizar_csv_pasada ruta f tam (fila0 :: filas) None) in H; auto.
    repeat split; auto; congruence.
Qed.

Lemma csv_pasada_idx (filas : list (list string)) :
  filas <> [] ->
  ((csv_pasada filas).1.1 < Nat.min MAX_FILAS_BUSQUEDA_HEADER (length filas))%nat.
Proof.
  intros Hne. unfold csv_pasada.
  assert (take (MAX_FILAS_BUSQUEDA_HEADER + 1) (map (map VStr) filas) <> []) as Hne'.
  { destruct filas; [congruence|]. discriminate. }
  pose proof (_buscar_fila_encabezado_idx _ Hne') as Hidx.
  destruct (_buscar_fila_encabezado _) as [idx headers]. cbn [fst snd] in *.
  rewrite length_take, length_map in Hidx. lia.
Qed.

Lemma analizar_hoja_casos (nombre_hoja : string) (rows : flujo (list valor)) (h : hoja_info) :
  analizar_hoja nombre_hoja rows = inr h ->
  rows.2 = None /\
  ((rows.1 = [] /\ h = {| nombre := nombre_hoja; hoja_datos := datos_vacios (Some 1%Z) |}) \/
   (rows.1 <> [] /\
    h = {| nombre := nombre_hoja;
           hoja_datos :=
             {| columnas := (excel_pasada rows.1).1.2;
                total_filas := (excel_pasada rows.1).2.2;
                muestra_valores := (excel_pasada rows.1).2.1.1;
                tipos_detectados := (excel_pasada rows.1).2.1.2;
                fila_encabezado := Some (Z.of_nat (excel_pasada rows.1).1.1 + 1)%Z |} |})).
Proof.
  destruct rows as [todas fin]. unfold analizar_hoja, excel_pasada. cbn [fst snd].
  destruct fin as [e|]; [discriminate|]. intros [= <-]. split; [reflexivity|].
  destruct todas as [|fila0 todas]; [left; split; reflexivity|].
  right. split; [discriminate|].
  set (prim := take MAX_FILAS_BUSQUEDA_HEADER (fila0 :: todas)).
  assert (exists x l, prim = x :: l) as (x & l & Hp) by (eexists _, _; reflexivity).
  destruct (_buscar_fila_encabezado prim) as [idx headers].
  destruct (procesar_filas _ _ _ _ _) as [st n]. rewrite Hp. reflexivity.
Qed.


(** Every sheet of an Excel result is the analysis of a sheet of the
    workbook. *)
Lemma analizar_hojas_origen (wb : libro) (hechas : list hoja_info) (h : hoja_info) :
  In h (analizar_hojas wb hechas).1 ->
  In h hechas \/
  exists nombre_hoja rows, In (nombre_hoja, rows) wb /\ analizar_hoja nombre_hoja rows = inr h.
Proof.
  revert hechas. induction wb as [|[n rows] wb IH]; intros hechas Hin; simpl in Hin.
  - left. exact Hin.
  - destruct (analizar_hoja n rows) as [e|hoja] eqn:Eh; simpl in Hin.
    + left. exact Hin.
    + destruct (IH _ Hin) as [Hh|(n' & rows' & Hw & Ha)].
      * apply in_app_or in Hh as [Hh|[<-|[]]]; [left; exact Hh|].
        right. exists n, rows. split; [left; reflexivity|exact Eh].
      * right. exists n', rows'. split; [right; exact Hw|exact Ha].
Qed.

Lemma analizar_excel_hojas (openpyxl : bool) (ruta : string) (f : entrada_excel)
    (r : resultado) (hs : list hoja_info) (h : hoja_info) :
  analizar_excel openpyxl ruta f = inr r -> hojas r = Some hs -> In h hs ->
  exists wb nombre_hoja rows,
    xl_load_workbook f = inr wb /\ In (nombre_hoja, rows) wb /\
    analizar_hoja nombre_hoja rows = inr h.
Proof.
  unfold analizar_excel. destruct openpyxl; simpl; [|intros [= <-]; discriminate].
  destruct (xl_getsize f) as [e|tam]; [discriminate|].
  destruct (xl_load_workbook f) as [e|wb] eqn:Hwb.
  - intros [= <-] [= <-] [].
  - destruct (analizar_hojas wb []) as [hs' err] eqn:Ehs.
    intros [= <-] [= <-] Hin.
    pose proof (analizar_hojas_origen wb [] h) as Ho. rewrite Ehs in Ho.
    destruct (Ho Hin) as [[]|(n & rows & Hw & Ha)].
    exists wb, n, rows. auto.
Qed.




(** ** Scenario A *)

Lemma escenario_A_resultado (ruta : string) (tam : Z) :
  analizar_csv ruta {| csv_getsize := inr tam; csv_reader := inr (escenario_A, None) |}
  = inr (resultado_csv ruta tam
           {| columnas := ["id"; "name"; "amount"];
              total_filas := 1;
              muestra_valores :=
                {[ "id" := {[ "1" ]}; "name" := {[ "Alice" ]}; "amount" := {[ "100.5" ]} ]};
              tipos_detectados :=
                {[ "id" := "entero"; "name" := "texto"; "amount" := "decimal" ]};
              fila_encabezado := Some 3%Z |}
           None).
Proof. vm_compute. reflexivity. Qed.

(** C1 (as the code has it). On the rows of scenario A the header detector
    returns index 2, which the CSV result stores as row number 3; the
    columns are id, name, amount, typed entero, texto, decimal. *)
Theorem C1_scenario_A (ruta : string) (tam : Z) :
  _buscar_fila_encabezado (map (map VStr) escenario_A) = (2%nat, ["id"; "name"; "amount"]) /\
  analizar_csv ruta {| csv_getsize := inr tam; csv_reader := inr (escenario_A, None) |}
  = inr (resultado_csv ruta tam
           {| columnas := ["id"; "name"; "amount"];
              total_filas := 1;
              muestra_valores :=
                {[ "id" := {[ "1" ]}; "name" := {[ "Alice" ]}; "amount" := {[ "100.5" ]} ]};
              tipos_detectados :=
                {[ "id" := "entero"; "name" := "texto"; "amount" := "decimal" ]};
              fila_encabezado := Some 3%Z |}
           None).
Proof. split; [vm_compute; reflexivity|apply escenario_A_resultado]. Qed.

(** The claim as stated fails on the header row field: the result stores
    3, not 2. *)
Lemma C1_counterexample :
  ~ exists r d,
      analizar_csv "a.csv"
        {| csv_getsize := inr 64%Z; csv_reader := inr (escenario_A, None) |} = inr r /\
      datos r = Some d /\
      fila_encabezado d = Some 2%Z /\
      columnas d = ["id"; "name"; "amount"] /\
      tipos_detectados d = {[ "id" := "entero"; "name" := "texto"; "amount" := "decimal" ]}.
Proof.
  intros (r & d & Hr & Hd & Hf & _).
  rewrite (escenario_A_resultado "a.csv" 64) in Hr.
  injection Hr as <-. injection Hd as <-. discriminate Hf.
Qed.

Lemma C6_header_selection_witness :
  let filas := [ [VStr "Informe"]; [VStr "id"; VStr "name"]; [VStr "id"; VStr "name"] ] in
  exists fila,
    take MAX_FILAS_BUSQUEDA_HEADER filas !! (_buscar_fila_encabezado filas).1 = Some fila /\
    es_elegible fila = true /\
    (_buscar_fila_encabezado filas).2 = map limpiar_encabezado (enumerate fila) /\
    forall j f, take MAX_FILAS_BUSQUEDA_HEADER filas !! j = Some f -> es_elegible f = true ->
      PyFloat.leb (puntaje f) (puntaje fila) = true /\
      ((j < (_buscar_fila_encabezado filas).1)%nat ->
       PyFloat.ltb (puntaje f) (puntaje fila) = true).
Proof.
  apply (proj1 (C6_header_selection
                  [ [VStr "Informe"]; [VStr "id"; VStr "name"]; [VStr "id"; VStr "name"] ])).
  exists 1%nat, [VStr "id"; VStr "name"]. split; vm_compute; reflexivity.
Defined.

(** ** The Arrow type names *)

(** C8. [_traducir_tipo_arrow] goes through the substrings int, float or
    double, timestamp or date, bool, string or utf8 of the lower-cased
    type name, in this order, and answers entero, decimal, fecha,
    booleano, texto for the first one found; a name with none of them is
    returned as it is. *)
Theorem C8_traducir_tipo_arrow (tipo_arrow : string) :
  let t := Py.lower tipo_arrow in
  let tiene sub := Py.contains sub t = true in
  (tiene "int" -> _traducir_tipo_arrow tipo_arrow = "entero") /\
  (~ tiene "int" -> tiene "float" \/ tiene "double" ->
   _traducir_tipo_arrow tipo_arrow = "decimal") /\
  (~ tiene "int" -> ~ tiene "float" -> ~ tiene "double" ->
   tiene "timestamp" \/ tiene "date" ->
   _traducir_tipo_arrow tipo_arrow = "fecha") /\
  (~ tiene "int" -> ~ tiene "float" -> ~ tiene "double" ->
   ~ tiene "timestamp" -> ~ tiene "date" -> tiene "bool" ->
   _traducir_tipo_arrow tipo_arrow = "booleano") /\
  (~ tiene "int" -> ~ tiene "float" -> ~ tiene "double" ->
   ~ tiene "timestamp" -> ~ tiene "date" -> ~ tiene "bool" ->
   tiene "string" \/ tiene "utf8" ->
   _traducir_tipo_arrow tipo_arrow = "texto") /\
  (~ tiene "int" -> ~ tiene "float" -> ~ tiene "double" ->
   ~ tiene "timestamp" -> ~ tiene "date" -> ~ tiene "bool" ->
   ~ tiene "string" -> ~ tiene "utf8" ->
   _traducir_tipo_arrow tipo_arrow = tipo_arrow).
Proof.
  cbn zeta. unfold _traducir_tipo_arrow.
  destruct (Py.contains "int" _), (Py.contains "float" _), (Py.contains "double" _),
    (Py.contains "timestamp" _), (Py.contains "date" _), (Py.contains "bool" _),
    (Py.contains "string" _), (Py.contains "utf8" _);
    cbn [orb]; repeat split; intros; try reflexivity; try congruence;
    repeat match goal with H : _ \/ _ |- _ => destruct H end; congruence.
Qed.

Lemma C8_traducir_tipo_arrow_witness :
  _traducir_tipo_arrow "int64" = "entero" /\
  _traducir_tipo_arrow "double" = "decimal" /\
  _traducir_tipo_arrow "timestamp[ns]" = "fecha" /\
  _traducir_tipo_arrow "bool" = "booleano" /\
  _traducir_tipo_arrow "large_string" = "texto" /\
  _traducir_tipo_arrow "Binary" = "Binary".
Proof.
  pose proof (C8_traducir_tipo_arrow "int64") as (H1 & _).
  pose proof (C8_traducir_tipo_arrow "double") as (_ & H2 & _).
  pose proof (C8_traducir_tipo_arrow "timestamp[ns]") as (_ & _ & H3 & _).
  pose proof (C8_traducir_tipo_arrow "bool") as (_ & _ & _ & H4 & _).
  pose proof (C8_traducir_tipo_arrow "large_string") as (_ & _ & _ & _ & H5 & _).
  pose proof (C8_traducir_tipo_arrow "Binary") as (_ & _ & _ & _ & _ & H6).
  cbn zeta in *.
  split; [apply H1; reflexivity|].
  split; [apply H2; [discriminate|right; reflexivity]|].
  split; [apply H3; try discriminate; left; reflexivity|].
  split; [apply H4; try discriminate; reflexivity|].
  split; [apply H5; try discriminate; left; reflexivity|].
  apply H6; discriminate.
Defined.

(** ** The pass over the data rows as a sequence of cell events *)

Lemma foldl_insert_const {V : Type} (v : V) (l : list string) (m0 : gmap string V)
    (c : string) :
  foldl (fun m col => <[col := v]> m) m0 l !! c
  = if decide (c ∈ l) then Some v else m0 !! c.
Proof.
  revert m0. induction l as [|h l IH]; intros m0; simpl.
  - destruct (decide (c ∈ [])) as [Hc|Hc]; [set_solver|reflexivity].
  - rewrite IH.
    destruct (decide (c ∈ l)) as [Hl|Hl], (decide (c ∈ h :: l)) as [Hhl|Hhl];
      try reflexivity; try set_solver.
    + destruct (decide (c = h)) as [->|Hne]; [|set_solver].
      rewrite lookup_insert_eq. reflexivity.
    + rewrite lookup_insert_ne; [reflexivity|set_solver].
Qed.


Lemma acumulado_inicial_muestras (headers : list string) (col : string) :
  (acumulado_inicial headers).1 !! col = if decide (col ∈ headers) then Some ∅ else None.
Proof.
  unfold acumulado_inicial. cbn [fst]. rewrite foldl_insert_const.
  destruct (decide (col ∈ headers)); [reflexivity|apply lookup_empty].
Qed.

Section Pasada.
Variable admite : valor -> bool.
Variable clasifica : valor -> string.

Lemma procesar_celdas_eventos (headers : list string) (n : Z)
    (items : list (nat * valor)) (st : acumulado) :
  fold_left (procesar_celda admite clasifica headers n) items st
  = fold_left (aplicar_evento admite clasifica)
      (omap (fun item : nat * valor => (fun col => (col, item.2, n)) <$> headers !! item.1)
            items) st.
Proof.
  revert st. induction items as [|[i val] items IH]; intros st; simpl; [reflexivity|].
  rewrite IH. destruct (headers !! i) as [col|]; simpl; reflexivity.
Qed.

Lemma procesar_filas_eventos (rows : list (list valor)) (headers : list string)
    (st : acumulado) (n : Z) :
  (procesar_filas (procesar_fila admite clasifica) rows headers st n).1
  = fold_left (aplicar_evento admite clasifica) (eventos headers rows n) st.
Proof.
  revert st n. induction rows as [|row rows IH]; intros st n; simpl; [reflexivity|].
  rewrite IH, fold_left_app. unfold procesar_fila, eventos_fila.
  rewrite procesar_celdas_eventos. reflexivity.
Qed.







(** The samples do not depend on the row numbers: every admitted value
    goes through [muestrear], in order. *)
Lemma muestras_eventos (evs : list evento) (st : acumulado) :
  (fold_left (aplicar_evento admite clasifica) evs st).1
  = fold_left (fun vu (ev : evento) => if admite ev.1.2 then muestrear ev.1.1 ev.1.2 vu else vu)
      evs st.1.
Proof.
  revert st. induction evs as [|[[c v] n] evs IH]; intros st; simpl; [reflexivity|].
  rewrite IH. unfold aplicar_evento. cbn [fst snd]. destruct (admite v); reflexivity.
Qed.





End Pasada.

Lemma _procesar_fila_datos_eq :
  _procesar_fila_datos = procesar_fila admite_csv clasifica_csv.
Proof. reflexivity. Qed.

Lemma procesar_fila_excel_eq :
  procesar_fila_excel = procesar_fila admite_nativo _detectar_tipo_valor.
Proof. reflexivity. Qed.

Section Politica.
Variable admite : valor -> bool.
Variable clasifica : valor -> string.
Variable headers : list string.
Variable rows : list (list valor).
Variable col : string.
Hypothesis col_en_headers : In col headers.

Local Abbreviation pasada rs :=
  (procesar_filas (procesar_fila admite clasifica) rs headers (acumulado_inicial headers) 0%Z).




End Politica.



(** ** ValueSampler *)

Lemma slice_to_length (n : nat) (s : string) : (String.length (Py.slice_to n s) <= n)%nat.
Proof.
  revert s. induction n as [|n IH]; intros s; simpl; [lia|].
  destruct s as [|c s]; simpl; [lia|]. specialize (IH s). lia.
Qed.

Lemma slice_to_no_vacio (n : nat) (s : string) :
  s <> "" -> Py.slice_to (S n) s <> "".
Proof. destruct s; [congruence|discriminate]. Qed.

Lemma muestras_ok_vacio (origen : string -> valor -> Prop) (headers : list string) :
  muestras_ok origen (acumulado_inicial headers).1.
Proof.
  intros col X H. rewrite acumulado_inicial_muestras in H.
  destruct (decide (col ∈ headers)); [|discriminate]. injection H as <-.
  split; [rewrite size_empty; unfold MUESTRA_VALORES; lia|].
  intros s Hs. apply elem_of_empty in Hs. contradiction.
Qed.

Lemma agregar_ok (origen : string -> valor -> Prop) (col s0 : string)
    (vu : gmap string (gset string)) :
  muestras_ok origen vu ->
  ((String.length s0 <= 50)%nat /\ exists v, origen col v /\ s0 = Py.slice_to 50 (py_str v)) ->
  (size (vu !!! col) < MUESTRA_VALORES)%nat ->
  muestras_ok origen (<[col := vu !!! col ∪ {[ s0 ]}]> vu).
Proof.
  intros Hok Hv Hsz col' X HX.
  destruct (decide (col = col')) as [<-|Hne].
  - rewrite lookup_insert_eq in HX. injection HX as <-. split.
    + rewrite size_union_alt.
      pose proof (subseteq_size ({[s0]} ∖ (vu !!! col) : gset string) {[s0]}) as Hle.
      rewrite size_singleton in Hle.
      assert (({[s0]} ∖ (vu !!! col) : gset string) ⊆ {[s0]}) as Hsub.
      { intros x Hx. apply elem_of_difference in Hx as [Hx _]. exact Hx. }
      specialize (Hle Hsub). lia.
    + intros s Hs. apply elem_of_union in Hs as [Hs|Hs].
      * rewrite lookup_total_alt in Hs.
        destruct (vu !! col) as [Y|] eqn:EY; simpl in Hs;
          [|apply elem_of_empty in Hs; contradiction].
        apply (Hok col Y EY). exact Hs.
      * apply elem_of_singleton in Hs as ->. exact Hv.
  - rewrite lookup_insert_ne in HX by exact Hne. apply (Hok col' X HX).
Qed.

Lemma muestra_de (origen : string -> valor -> Prop) (col : string) (v : valor) :
  origen col v ->
  (String.length (Py.slice_to 50 (py_str v)) <= 50)%nat /\
  exists v', origen col v' /\ Py.slice_to 50 (py_str v) = Py.slice_to 50 (py_str v').
Proof. intros H. split; [apply slice_to_length|]. exists v. auto. Qed.

Lemma muestrear_ok (origen : string -> valor -> Prop) (col : string) (v : valor)
    (vu : gmap string (gset string)) :
  muestras_ok origen vu -> origen col v -> muestras_ok origen (muestrear col v vu).
Proof.
  intros Hok Hv. unfold muestrear.
  destruct (Nat.ltb_spec (size (vu !!! col)) MUESTRA_VALORES); [|exact Hok].
  apply agregar_ok; auto using muestra_de.
Qed.

Lemma muestras_fold_ok (admite : valor -> bool) (origen : string -> valor -> Prop)
    (evs : list evento) (vu : gmap string (gset string)) :
  (forall c v n, In (c, v, n) evs -> admite v = true -> origen c v) ->
  muestras_ok origen vu ->
  muestras_ok origen
    (fold_left (fun vu (ev : evento) =>
                  if admite ev.1.2 then muestrear ev.1.1 ev.1.2 vu else vu) evs vu).
Proof.
  revert vu. induction evs as [|[[c v] n] evs IH]; intros vu Hev Hok; simpl; [exact Hok|].
  apply IH; [intros c' v' n' Hin Ha; apply (Hev c' v' n'); [right; exact Hin|exact Ha]|].
  destruct (admite v) eqn:Ea; [|exact Hok].
  apply muestrear_ok; [exact Hok|]. apply (Hev c v n); [left; reflexivity|exact Ea].
Qed.

Lemma eventos_fila_origen (headers : list string) (row : list valor) (k : Z)
    (c : string) (v : valor) (n : Z) :
  In (c, v, n) (eventos_fila headers row k) -> In v row.
Proof.
  unfold eventos_fila. intros H. apply list_elem_of_In, list_elem_of_omap in H.
  destruct H as ([i v'] & Hin & Hf). cbn [fst snd] in Hf.
  destruct (headers !! i); [|discriminate]. injection Hf as <- <- <-.
  apply list_elem_of_In in Hin. unfold enumerate in Hin. eapply in_combine_r, Hin.
Qed.

Lemma eventos_origen (headers : list string) (rows : list (list valor)) (k : Z)
    (c : string) (v : valor) (n : Z) :
  In (c, v, n) (eventos headers rows k) -> exists row, In row rows /\ In v row.
Proof.
  revert k. induction rows as [|row rows IH]; intros k H; simpl in H; [contradiction|].
  apply in_app_or in H as [H|H].
  - exists row. split; [left; reflexivity|eapply eventos_fila_origen, H].
  - destruct (IH _ H) as (row' & Hr & Hv). exists row'. split; [right; exact Hr|exact Hv].
Qed.

(** The samples a pass collects from the state it starts with. *)
Lemma pasada_muestras_ok (admite : valor -> bool) (clasifica : valor -> string)
    (headers : list string) (rows : list (list valor)) :
  muestras_ok (fun _ v => admite v = true /\ exists row, In row rows /\ In v row)
    (procesar_filas (procesar_fila admite clasifica) rows headers
       (acumulado_inicial headers) 0%Z).1.1.
Proof.
  rewrite procesar_filas_eventos, muestras_eventos.
  apply muestras_fold_ok; [|apply muestras_ok_vacio].
  intros c v n Hin Ha. split; [exact Ha|]. eapply eventos_origen, Hin.
Qed.

Lemma csv_pasada_eq (filas : list (list string)) :
  (csv_pasada filas).2
  = procesar_filas _procesar_fila_datos
      (drop ((csv_pasada filas).1.1 + 1) (map (map VStr) filas))
      (csv_pasada filas).1.2 (acumulado_inicial (csv_pasada filas).1.2) 0%Z.
Proof.
  unfold csv_pasada. destruct (_buscar_fila_encabezado _) as [idx headers]. reflexivity.
Qed.

Lemma excel_pasada_eq (todas_filas : list (list valor)) :
  (excel_pasada todas_filas).2
  = procesar_filas procesar_fila_excel
      (drop ((excel_pasada todas_filas).1.1 + 1) todas_filas)
      (excel_pasada todas_filas).1.2 (acumulado_inicial (excel_pasada todas_filas).1.2) 0%Z.
Proof.
  unfold excel_pasada. destruct (_buscar_fila_encabezado _) as [idx headers]. reflexivity.
Qed.

Lemma In_drop {A : Type} (n : nat) (l : list A) (x : A) : In x (drop n l) -> In x l.
Proof.
  intros H. rewrite <- (take_drop n l). apply in_or_app. right. exact H.
Qed.

Lemma admite_csv_VStr (v : valor) (fila : list string) :
  admite_csv v = true -> In v (map VStr fila) ->
  exists str, In str fila /\ v = VStr str /\ str <> "" /\ Py.strip str <> "".
Proof.
  intros Ha Hin. apply in_map_iff in Hin as (str & <- & Hin).
  exists str. split; [exact Hin|]. split; [reflexivity|].
  unfold admite_csv in Ha. apply andb_true_iff in Ha as [H1 H2]. simpl in H1, H2.
  split.
  - intros ->. discriminate H1.
  - intros E. rewrite E in H2. discriminate H2.
Qed.

Lemma csv_pasada_muestras (filas : list (list string)) :
  muestras_ok
    (fun _ v => exists fila str, In fila filas /\ In str fila /\
                  v = VStr str /\ str <> "" /\ Py.strip str <> "")
    (csv_pasada filas).2.1.1.
Proof.
  rewrite csv_pasada_eq, _procesar_fila_datos_eq.
  intros col X HX.
  destruct (pasada_muestras_ok _ _ _ _ col X HX) as [Hsz Hel].
  split; [exact Hsz|]. intros s Hs. destruct (Hel s Hs) as [Hlen (v & [Ha (row & Hr & Hv)] & ->)].
  split; [exact Hlen|]. exists v. split; [|reflexivity].
  apply In_drop, in_map_iff in Hr as (fila & <- & Hf).
  destruct (admite_csv_VStr v fila Ha Hv) as (str & Hstr & Hv' & Hne & Hst).
  exists fila, str. auto.
Qed.

Lemma excel_pasada_muestras (todas_filas : list (list valor)) :
  muestras_ok
    (fun _ v => v <> VNone /\ exists row, In row todas_filas /\ In v row)
    (excel_pasada todas_filas).2.1.1.
Proof.
  rewrite excel_pasada_eq, procesar_fila_excel_eq.
  intros col X HX.
  destruct (pasada_muestras_ok _ _ _ _ col X HX) as [Hsz Hel].
  split; [exact Hsz|]. intros s Hs. destruct (Hel s Hs) as [Hlen (v & [Ha (row & Hr & Hv)] & ->)].
  split; [exact Hlen|]. exists v. split; [|reflexivity]. split.
  - intros ->. discriminate Ha.
  - exists row. split; [eapply In_drop, Hr|exact Hv].
Qed.

(** *** The Parquet sampler *)

Lemma muestrear_columna_ok (origen : string -> valor -> Prop) (col_name : string)
    (column : list valor) (vu : gmap string (gset string)) :
  (forall v, In v (take (MUESTRA_VALORES * 2) column) -> v <> VNone -> origen col_name v) ->
  muestras_ok origen vu ->
  muestras_ok origen (muestrear_columna col_name column vu).
Proof.
  unfold muestrear_columna.
  assert (take (Nat.min (length column) (MUESTRA_VALORES * 2)) column
          = take (MUESTRA_VALORES * 2) column) as ->.
  { destruct (Nat.le_ge_cases (length column) (MUESTRA_VALORES * 2)) as [Hle|Hge].
    - rewrite Nat.min_l by exact Hle. rewrite !take_ge by lia. reflexivity.
    - rewrite Nat.min_r by exact Hge. reflexivity. }
  generalize (take (MUESTRA_VALORES * 2) column). intros l.
  revert vu. induction l as [|v l IH]; intros vu Hv Hok; cbn [fold_left]; [exact Hok|].
  apply IH; [intros v' Hin; apply Hv; right; exact Hin|].
  destruct (MUESTRA_VALORES <=? size (vu !!! col_name))%nat eqn:E; [exact Hok|].
  apply Nat.leb_gt in E.
  destruct (is_none v) eqn:En; [exact Hok|].
  apply agregar_ok; [exact Hok| |lia].
  apply muestra_de, Hv; [left; reflexivity|]. intros ->. discriminate En.
Qed.

Lemma muestrear_batch_ok (b : batch) (columnas : list string)
    (vu : gmap string (gset string)) :
  let origen col v :=
    v <> VNone /\ exists column, b col = inr column /\ In v (take (MUESTRA_VALORES * 2) column) in
  muestras_ok origen vu -> muestras_ok origen (muestrear_batch b columnas vu).
Proof.
  intros origen. unfold muestrear_batch.
  revert vu. induction columnas as [|c cols IH]; intros vu Hok; cbn [fold_left]; [exact Hok|].
  apply IH. destruct (MUESTRA_VALORES <=? size (vu !!! c))%nat; [exact Hok|].
  destruct (b c) as [e|column] eqn:Eb; [exact Hok|].
  apply muestrear_columna_ok; [|exact Hok].
  intros v Hin Hne. split; [exact Hne|]. exists column. auto.
Qed.

Lemma analizar_parquet_casos (pyarrow : bool) (ruta : string) (f : entrada_parquet)
    (r : resultado) (d : datos_tabla) :
  analizar_parquet pyarrow ruta f = inr r -> datos r = Some d ->
  exists tam, pyarrow = true /\ pq_getsize f = inr tam /\
    ((exists e, pq_ParquetFile f = inl e /\ d = datos_vacios None /\ error r = Some e) \/
     (exists pf, pq_ParquetFile f = inr pf /\ error r = None /\
        d = {| columnas := map fst (schema_arrow pf);
               total_filas := num_rows pf;
               muestra_valores := parquet_muestras pf;
               tipos_detectados :=
                 foldl (fun m field => <[field.1 := _traducir_tipo_arrow field.2]> m)
                   ∅ (schema_arrow pf);
               fila_encabezado := None |})).
Proof.
  unfold analizar_parquet. destruct pyarrow; simpl; [|intros [= <-]; discriminate].
  destruct (pq_getsize f) as [e|tam]; [discriminate|].
  intros [= <-] Hd. exists tam. split; [reflexivity|]. split; [reflexivity|].
  destruct (pq_ParquetFile f) as [e|pf]; simpl in Hd; injection Hd as <-.
  - left. exists e. auto.
  - right. exists pf. split; [reflexivity|]. split; [reflexivity|].
    unfold parquet_muestras. destruct (iter_batches pf _) as [[|b bs] fin]; reflexivity.
Qed.

(** C4 (as the code has it). In every analyzer a column holds at most 5
    samples, each of at most 50 characters.  A CSV sample is the start of
    a field of the file that is not blank, so it is never empty; an Excel
    or Parquet sample is the start of [str(v)] for a value [v] of the
    sheet, or of the first ten rows of the column in the first batch, that
    is not [None]. *)
Theorem C4_value_sampler :
  (forall ruta f r d col X,
     analizar_csv ruta f = inr r -> datos r = Some d ->
     muestra_valores d !! col = Some X ->
     (size X <= 5)%nat /\
     forall s, s ∈ X ->
       (String.length s <= 50)%nat /\ s <> "" /\
       exists filas fin fila str,
         csv_reader f = inr (filas, fin) /\ In fila filas /\ In str fila /\
         str <> "" /\ Py.strip str <> "" /\ s = Py.slice_to 50 str) /\
  (forall openpyxl ruta f r hs h col X,
     analizar_excel openpyxl ruta f = inr r -> hojas r = Some hs -> In h hs ->
     muestra_valores (hoja_datos h) !! col = Some X ->
     (size X <= 5)%nat /\
     forall s, s ∈ X ->
       (String.length s <= 50)%nat /\
       exists wb rows row v,
         xl_load_workbook f = inr wb /\ In (nombre h, (rows, None)) wb /\
         In row rows /\ In v row /\ v <> VNone /\ s = Py.slice_to 50 (py_str v)) /\
  (forall pyarrow ruta f r d col X,
     analizar_parquet pyarrow ruta f = inr r -> datos r = Some d ->
     muestra_valores d !! col = Some X ->
     (size X <= 5)%nat /\
     forall s, s ∈ X ->
       (String.length s <= 50)%nat /\
       exists pf b resto fin column v,
         pq_ParquetFile f = inr pf /\ iter_batches pf 1000 = (b :: resto, fin) /\
         b col = inr column /\ In v (take 10 column) /\
         v <> VNone /\ s = Py.slice_to 50 (py_str v)).
Proof.
  split; [|split].
  - intros ruta f r d col X Hr Hd HX.
    destruct (analizar_csv_casos ruta f r Hr)
      as (tam & _ & [[err ->]|(filas & fin & Hrd & Hne & _ & ->)]);
      simpl in Hd; injection Hd as <-; simpl in HX.
    { rewrite lookup_empty in HX. discriminate HX. }
    destruct fin as [e|]; [rewrite lookup_empty in HX; discriminate HX|].
    destruct (csv_pasada_muestras filas col X HX) as [Hsz Hel].
    split; [exact Hsz|]. intros s Hs.
    destruct (Hel s Hs) as [Hlen (v & (fila & str & Hf & Hstr & -> & Hne1 & Hne2) & ->)].
    split; [exact Hlen|]. split; [apply slice_to_no_vacio, Hne1|].
    exists filas, None, fila, str. repeat split; auto.
  - intros openpyxl ruta f r hs h col X Hr Hhs Hin HX.
    destruct (analizar_excel_hojas openpyxl ruta f r hs h Hr Hhs Hin)
      as (wb & n & [rows fin] & Hwb & Hw & Ha).
    destruct (analizar_hoja_casos n (rows, fin) h Ha) as [Hfin [[_ ->]|[Hne ->]]];
      cbn [fst snd] in *; subst fin; simpl in HX.
    { rewrite lookup_empty in HX. discriminate HX. }
    destruct (excel_pasada_muestras rows col X HX) as [Hsz Hel].
    split; [exact Hsz|]. intros s Hs.
    destruct (Hel s Hs) as [Hlen (v & (Hv & row & Hrow & Hvr) & ->)].
    split; [exact Hlen|]. exists wb, rows, row, v. repeat split; auto.
  - intros pyarrow ruta f r d col X Hr Hd HX.
    destruct (analizar_parquet_casos pyarrow ruta f r d Hr Hd)
      as (tam & _ & _ & [(e & _ & -> & _)|(pf & Hpf & _ & ->)]); simpl in HX.
    { rewrite lookup_empty in HX. discriminate HX. }
    unfold parquet_muestras in HX. change (Z.min 1000 CHUNK_SIZE) with 1000%Z in HX.
    destruct (iter_batches pf 1000) as [[|b resto] fin] eqn:Eb.
    + destruct (muestras_ok_vacio (fun _ _ => False) _ col X HX) as [Hsz Hel].
      split; [exact Hsz|]. intros s Hs. destruct (Hel s Hs) as [_ (v & [] & _)].
    + pose proof (muestrear_batch_ok b (map fst (schema_arrow pf))
                    (acumulado_inicial (map fst (schema_arrow pf))).1
                    (muestras_ok_vacio _ _) col X HX) as [Hsz Hel].
      split; [exact Hsz|]. intros s Hs.
      destruct (Hel s Hs) as [Hlen (v & (Hv & column & Hc & Hin) & ->)].
      split; [exact Hlen|]. exists pf, b, resto, fin, column, v. repeat split; auto.
Qed.

Lemma C4_value_sampler_witness :
  let f := {| csv_getsize := inr 20%Z;
              csv_reader := inr ([["id"; "name"]; ["7"; " "]; ["7"; "Ana"]], None) |} in
  (size ({[ "Ana" ]} : gset string) <= 5)%nat /\
  forall s, s ∈ ({[ "Ana" ]} : gset string) ->
    (String.length s <= 50)%nat /\ s <> "" /\
    exists filas fin fila str,
      csv_reader f = inr (filas, fin) /\ In fila filas /\ In str fila /\
      str <> "" /\ Py.strip str <> "" /\ s = Py.slice_to 50 str.
Proof.
  apply (proj1 C4_value_sampler "a.csv"
           {| csv_getsize := inr 20%Z;
              csv_reader := inr ([["id"; "name"]; ["7"; " "]; ["7"; "Ana"]], None) |}
           (resultado_csv "a.csv" 20
              {| columnas := ["id"; "name"]; total_filas := 2;
                 muestra_valores := {[ "id" := {[ "7" ]}; "name" := {[ "Ana" ]} ]};
                 tipos_detectados := {[ "id" := "entero"; "name" := "texto" ]};
                 fila_encabezado := Some 1%Z |} None)
           {| columnas := ["id"; "name"]; total_filas := 2;
              muestra_valores := {[ "id" := {[ "7" ]}; "name" := {[ "Ana" ]} ]};
              tipos_detectados := {[ "id" := "entero"; "name" := "texto" ]};
              fila_encabezado := Some 1%Z |}
           "name" {[ "Ana" ]});
    [vm_compute; reflexivity|reflexivity|vm_compute; reflexivity].
Defined.

(** The claim as stated fails outside CSV: a Parquet column and an Excel
    sheet whose value is the empty string have it among their samples. *)
Lemma C4_counterexample :
  (exists r d,
     analizar_parquet true "a.parquet"
       {| pq_getsize := inr 100%Z;
          pq_ParquetFile :=
            inr {| num_rows := 1; schema_arrow := [("s", "string")];
                   iter_batches := fun _ => ([fun _ => inr [VStr ""]], None) |} |} = inr r /\
     datos r = Some d /\ muestra_valores d !! "s" = Some {[ "" ]}) /\
  (exists r h,
     analizar_excel true "a.xlsx"
       {| xl_getsize := inr 100%Z;
          xl_load_workbook :=
            inr [("Hoja1", ([[VStr "id"; VStr "name"]; [VStr ""; VStr "x"]], None))] |}
     = inr r /\
     hojas r = Some [h] /\ muestra_valores (hoja_datos h) !! "id" = Some {[ "" ]}).
Proof.
  split.
  - eexists _, _. split; [vm_compute; reflexivity|]. split; [reflexivity|].
    vm_compute. reflexivity.
  - eexists _, _. split; [vm_compute; reflexivity|]. split; [reflexivity|].
    vm_compute. reflexivity.
Qed.

(** ** StreamingParquetAnalyzer: metadata and shallow sampling *)

Lemma muestrear_columna_inicio (col_name : string) (column column' : list valor)
    (vu : gmap string (gset string)) :
  take (MUESTRA_VALORES * 2) column = take (MUESTRA_VALORES * 2) column' ->
  muestrear_columna col_name column vu = muestrear_columna col_name column' vu.
Proof.
  intros H. unfold muestrear_columna.
  assert (forall c : list valor,
            take (Nat.min (length c) (MUESTRA_VALORES * 2)) c
            = take (MUESTRA_VALORES * 2) c) as Hmin.
  { intros c. destruct (Nat.le_ge_cases (length c) (MUESTRA_VALORES * 2)) as [Hle|Hge].
    - rewrite Nat.min_l by exact Hle. rewrite !take_ge by lia. reflexivity.
    - rewrite Nat.min_r by exact Hge. reflexivity. }
  rewrite !Hmin, H. reflexivity.
Qed.

Lemma muestrear_batch_inicio (b b' : batch) (columnas : list string)
    (vu : gmap string (gset string)) :
  mismo_inicio b b' -> muestrear_batch b columnas vu = muestrear_batch b' columnas vu.
Proof.
  intros H. unfold muestrear_batch.
  revert vu. induction columnas as [|c cols IH]; intros vu; cbn [fold_left]; [reflexivity|].
  destruct (MUESTRA_VALORES <=? size (vu !!! c))%nat; [apply IH|].
  specialize (H c). destruct (b c) as [e|column], (b' c) as [e'|column'];
    try contradiction; [apply IH|].
  rewrite (muestrear_columna_inicio c column column' vu H). apply IH.
Qed.

(** C7. With the file opened, [total_filas] is the row count of the
    metadata, whatever the batches hold; the batches are requested with
    size min(1000, CHUNK_SIZE) = 1000; and the result is the same for any
    two files with the same metadata whose first batches agree on the first
    2 x 5 values of every column: later batches and later rows are not
    read. *)
Theorem C7_parquet_metadata_and_sampling :
  (forall ruta f tam pf,
     pq_getsize f = inr tam -> pq_ParquetFile f = inr pf ->
     exists r d,
       analizar_parquet true ruta f = inr r /\ datos r = Some d /\
       error r = None /\ total_filas d = num_rows pf) /\
  Z.min 1000 CHUNK_SIZE = 1000%Z /\
  (MUESTRA_VALORES * 2 = 10)%nat /\
  (forall ruta f f' tam pf pf' b b' resto resto' fin fin',
     pq_getsize f = inr tam -> pq_getsize f' = inr tam ->
     pq_ParquetFile f = inr pf -> pq_ParquetFile f' = inr pf' ->
     num_rows pf = num_rows pf' -> schema_arrow pf = schema_arrow pf' ->
     iter_batches pf 1000 = (b :: resto, fin) ->
     iter_batches pf' 1000 = (b' :: resto', fin') ->
     mismo_inicio b b' ->
     analizar_parquet true ruta f = analizar_parquet true ruta f').
Proof.
  split; [|split; [reflexivity|split; [reflexivity|]]].
  - intros ruta f tam pf Hsz Hpf. unfold analizar_parquet. rewrite Hsz, Hpf. simpl.
    eexists _, _. split; [reflexivity|]. split; [reflexivity|]. split; reflexivity.
  - intros ruta f f' tam pf pf' b b' resto resto' fin fin'
      Hsz Hsz' Hpf Hpf' Hn Hs Hb Hb' Hini.
    unfold analizar_parquet. rewrite Hsz, Hsz', Hpf, Hpf'. simpl.
    change (Z.min 1000 CHUNK_SIZE) with 1000%Z. rewrite Hb, Hb', Hn, Hs.
    rewrite (muestrear_batch_inicio b b' _ _ Hini). reflexivity.
Qed.

Lemma C7_parquet_metadata_and_sampling_witness :
  let pf := {| num_rows := 1000000; schema_arrow := [("s", "string")];
               iter_batches := fun _ => ([fun _ => inr [VStr "a"; VStr "b"]], None) |} in
  exists r d,
    analizar_parquet true "a.parquet"
      {| pq_getsize := inr 4096%Z; pq_ParquetFile := inr pf |} = inr r /\
    datos r = Some d /\ error r = None /\ total_filas d = 1000000%Z.
Proof.
  apply (proj1 C7_parquet_metadata_and_sampling "a.parquet"
           {| pq_getsize := inr 4096%Z;
              pq_ParquetFile :=
                inr {| num_rows := 1000000; schema_arrow := [("s", "string")];
                       iter_batches :=
                         fun _ => ([fun _ => inr [VStr "a"; VStr "b"]], None) |} |}
           4096%Z
           {| num_rows := 1000000; schema_arrow := [("s", "string")];
              iter_batches := fun _ => ([fun _ => inr [VStr "a"; VStr "b"]], None) |});
    reflexivity.
Defined.

(** ** Failures *)

(** C10. When the CSV reader raises in the streaming loop (after the 21
    rows read for header detection), the result has the error, a row count
    of 0 and no samples, although at least one data row was processed; its
    columns, header row and column types are those of the same rows read
    to the end. *)
Theorem C10_csv_mid_stream_failure (ruta : string) (f : entrada_csv) (tam : Z)
    (filas : list (list string)) (e : excepcion) :
  csv_getsize f = inr tam ->
  csv_reader f = inr (filas, Some e) ->
  (MAX_FILAS_BUSQUEDA_HEADER + 1 <= length filas)%nat ->
  exists r d r' d',
    analizar_csv ruta f = inr r /\ datos r = Some d /\
    analizar_csv ruta {| csv_getsize := inr tam; csv_reader := inr (filas, None) |} = inr r' /\
    datos r' = Some d' /\
    error r = Some e /\ error r' = None /\
    total_filas d = 0%Z /\ muestra_valores d = ∅ /\
    (0 < total_filas d')%Z /\
    columnas d = columnas d' /\
    fila_encabezado d = fila_encabezado d' /\
    tipos_detectados d = tipos_detectados d'.
Proof.
  intros Hsz Hrd Hlen.
  assert (filas <> []) as Hne.
  { intros ->. unfold MAX_FILAS_BUSQUEDA_HEADER in Hlen. simpl in Hlen. lia. }
  eexists _, _, _, _.
  split; [apply (analizar_csv_pasada ruta f tam filas (Some e)); auto|].
  split; [reflexivity|].
  split; [apply (analizar_csv_pasada ruta _ tam filas None); auto|].
  split; [reflexivity|].
  cbn [error total_filas muestra_valores columnas fila_encabezado tipos_detectados
       resultado_csv].
  repeat (split; [reflexivity|]). split; [|repeat split].
  rewrite csv_pasada_eq, procesar_filas_cuenta, length_drop, length_map.
  pose proof (csv_pasada_idx filas Hne) as Hidx.
  unfold MAX_FILAS_BUSQUEDA_HEADER in *. lia.
Qed.

Lemma C10_csv_mid_stream_failure_witness :
  let filas := ["id"; "n"] :: replicate 20 ["1"; "x"] in
  exists r d,
    analizar_csv "a.csv"
      {| csv_getsize := inr 99%Z; csv_reader := inr (filas, Some "I/O error") |} = inr r /\
    datos r = Some d /\ error r = Some "I/O error" /\
    total_filas d = 0%Z /\ muestra_valores d = ∅ /\
    columnas d = ["id"; "n"] /\ fila_encabezado d = Some 1%Z /\
    tipos_detectados d = {[ "id" := "entero"; "n" := "texto" ]}.
Proof.
  destruct (C10_csv_mid_stream_failure "a.csv"
              {| csv_getsize := inr 99%Z;
                 csv_reader := inr (["id"; "n"] :: replicate 20 ["1"; "x"], Some "I/O error") |}
              99%Z (["id"; "n"] :: replicate 20 ["1"; "x"]) "I/O error"
              eq_refl eq_refl ltac:(vm_compute; lia))
    as (r & d & r' & d' & Hr & Hd & Hr' & Hd' & He & _ & Ht & Hm & _ & Hc & Hf & Hty).
  exists r, d. repeat (split; [assumption|]).
  assert (r' = resultado_csv "a.csv" 99
                 {| columnas := ["id"; "n"]; total_filas := 20;
                    muestra_valores := {[ "id" := {[ "1" ]}; "n" := {[ "x" ]} ]};
                    tipos_detectados := {[ "id" := "entero"; "n" := "texto" ]};
                    fila_encabezado := Some 1%Z |} None) as ->.
  { vm_compute in Hr'. injection Hr' as <-. vm_compute. reflexivity. }
  injection Hd' as <-. rewrite Hc, Hf, Hty. repeat split.
Defined.








(** ** Further properties of the analyzers *)



(** X2. Header detection looks at the first 20 rows only; the CSV
    analyzer buffers 21 rows, and the header it finds is the one of the
    first 20 rows of the file. *)
Theorem X2_header_detection_first_rows :
  (forall filas : list (list valor),
     _buscar_fila_encabezado filas
     = _buscar_fila_encabezado (take MAX_FILAS_BUSQUEDA_HEADER filas)) /\
  (forall filas : list (list string),
     (csv_pasada filas).1
     = _buscar_fila_encabezado (map (map VStr) (take MAX_FILAS_BUSQUEDA_HEADER filas))).
Proof.
  assert (forall filas : list (list valor),
            _buscar_fila_encabezado filas
            = _buscar_fila_encabezado (take MAX_FILAS_BUSQUEDA_HEADER filas)) as H.
  { intros filas. unfold _buscar_fila_encabezado. rewrite take_take, Nat.min_id.
    destruct (fold_left _ _ _) as [[m i] f].
    destruct filas as [|fila0 filas]; reflexivity. }
  split; [exact H|].
  intros filas. unfold csv_pasada.
  set (M := map (map VStr) filas).
  assert (_buscar_fila_encabezado (take (MAX_FILAS_BUSQUEDA_HEADER + 1) M)
          = _buscar_fila_encabezado (take MAX_FILAS_BUSQUEDA_HEADER M)) as E1.
  { rewrite (H (take (MAX_FILAS_BUSQUEDA_HEADER + 1) M)), take_take. reflexivity. }
  assert (map (map VStr) (take MAX_FILAS_BUSQUEDA_HEADER filas)
          = take MAX_FILAS_BUSQUEDA_HEADER M) as E2.
  { unfold M. apply (fmap_take (map VStr)). }
  rewrite E1, E2.
  destruct (_buscar_fila_encabezado (take MAX_FILAS_BUSQUEDA_HEADER M)). reflexivity.
Qed.

(** ** The keys of the per-column dictionaries *)

Lemma dom_foldl_insert_const {V : Type} (v : V) (l : list string) :
  dom (foldl (fun m col => <[col := v]> m) (∅ : gmap string V) l) = list_to_set l.
Proof.
  apply set_eq. intros c. rewrite elem_of_dom, foldl_insert_const, elem_of_list_to_set.
  destruct (decide (c ∈ l)) as [Hc|Hc].
  - split; [intros _; exact Hc|intros _; eexists; reflexivity].
  - rewrite lookup_empty. split; [intros [x Hx]; discriminate Hx|intros Hin; contradiction].
Qed.

Lemma dom_muestrear (col : string) (v : valor) (vu : gmap string (gset string)) :
  col ∈ dom vu -> dom (muestrear col v vu) = dom vu.
Proof.
  intros H. unfold muestrear. destruct (_ <? _)%nat; [|reflexivity].
  rewrite dom_insert_L. apply set_eq. intros c. rewrite elem_of_union, elem_of_singleton.
  split; [intros [->|Hc]; assumption|intros Hc; right; exact Hc].
Qed.

Lemma dom_promover (col t : string) (tipos : gmap string string) :
  col ∈ dom tipos -> dom (promover col t tipos) = dom tipos.
Proof.
  intros H. unfold promover. destruct (_ && _); [|reflexivity].
  rewrite dom_insert_L. apply set_eq. intros c. rewrite elem_of_union, elem_of_singleton.
  split; [intros [->|Hc]; assumption|intros Hc; right; exact Hc].
Qed.

Lemma dom_eventos (admite : valor -> bool) (clasifica : valor -> string)
    (D : gset string) (evs : list evento) (st : acumulado) :
  (forall c v n, In (c, v, n) evs -> c ∈ D) ->
  dom st.1 = D -> dom st.2 = D ->
  dom (fold_left (aplicar_evento admite clasifica) evs st).1 = D /\
  dom (fold_left (aplicar_evento admite clasifica) evs st).2 = D.
Proof.
  revert st. induction evs as [|[[c v] n] evs IH]; intros st Hev H1 H2; cbn [fold_left];
    [split; assumption|].
  assert (c ∈ D) as Hc by (apply (Hev c v n); left; reflexivity).
  apply IH; [intros c' v' n' Hin; apply (Hev c' v' n'); right; exact Hin| |];
    unfold aplicar_evento; cbn [fst snd]; destruct (admite v); try assumption; cbn [fst snd].
  - rewrite dom_muestrear; [exact H1|]. rewrite H1. exact Hc.
  - destruct (n <=? 1000)%Z; [|exact H2].
    rewrite dom_promover; [exact H2|]. rewrite H2. exact Hc.
Qed.

Lemma eventos_fila_columna (headers : list string) (row : list valor) (k : Z)
    (c : string) (v : valor) (n : Z) :
  In (c, v, n) (eventos_fila headers row k) -> c ∈ headers.
Proof.
  unfold eventos_fila. intros H. apply list_elem_of_In, list_elem_of_omap in H.
  destruct H as ([i v'] & _ & Hf). cbn [fst snd] in Hf.
  destruct (headers !! i) as [col|] eqn:E; [|discriminate]. injection Hf as <- <- <-.
  eapply list_elem_of_lookup_2, E.
Qed.

Lemma eventos_columna (headers : list string) (rows : list (list valor)) (k : Z)
    (c : string) (v : valor) (n : Z) :
  In (c, v, n) (eventos headers rows k) -> c ∈ headers.
Proof.
  revert k. induction rows as [|row rows IH]; intros k H; simpl in H; [contradiction|].
  apply in_app_or in H as [H|H]; [eapply eventos_fila_columna, H|eapply IH, H].
Qed.

Lemma dom_pasada (admite : valor -> bool) (clasifica : valor -> string)
    (headers : list string) (rows : list (list valor)) :
  let st := (procesar_filas (procesar_fila admite clasifica) rows headers
               (acumulado_inicial headers) 0%Z).1 in
  dom st.1 = list_to_set headers /\ dom st.2 = list_to_set headers.
Proof.
  cbn zeta. rewrite procesar_filas_eventos.
  apply dom_eventos.
  - intros c v n H. apply elem_of_list_to_set. eapply eventos_columna, H.
  - apply dom_foldl_insert_const.
  - apply dom_foldl_insert_const.
Qed.

Lemma dom_muestrear_columna (col_name : string) (column : list valor)
    (vu : gmap string (gset string)) :
  col_name ∈ dom vu -> dom (muestrear_columna col_name column vu) = dom vu.
Proof.
  unfold muestrear_columna. generalize (take (Nat.min (length column) (MUESTRA_VALORES * 2)) column).
  intros l. revert vu. induction l as [|v l IH]; intros vu H; cbn [fold_left]; [reflexivity|].
  destruct (MUESTRA_VALORES <=? size (vu !!! col_name))%nat; [apply IH, H|].
  destruct (is_none v); [apply IH, H|].
  assert (dom (<[col_name := vu !!! col_name ∪ {[Py.slice_to 50 (py_str v)]}]> vu) = dom vu)
    as E.
  { rewrite dom_insert_L. apply set_eq. intros c. rewrite elem_of_union, elem_of_singleton.
    split; [intros [->|Hc]; assumption|intros Hc; right; exact Hc]. }
  rewrite IH; [exact E|]. rewrite E. exact H.
Qed.

Lemma dom_muestrear_batch (b : batch) (columnas : list string)
    (vu : gmap string (gset string)) :
  (forall c, c ∈ columnas -> c ∈ dom vu) ->
  dom (muestrear_batch b columnas vu) = dom vu.
Proof.
  unfold muestrear_batch. revert vu.
  induction columnas as [|c cols IH]; intros vu H; cbn [fold_left]; [reflexivity|].
  assert (c ∈ dom vu) as Hc by (apply H; left).
  assert (forall vu', dom vu' = dom vu ->
            dom (fold_left
                   (fun vu col_name =>
                      if (MUESTRA_VALORES <=? size (vu !!! col_name))%nat then vu
                      else match b col_name with
                           | inl _ => vu
                           | inr column => muestrear_columna col_name column vu
                           end) cols vu') = dom vu) as Hrest.
  { intros vu' E. rewrite IH; [exact E|]. intros c' Hc'. rewrite E. apply H. right. exact Hc'. }
  destruct (MUESTRA_VALORES <=? size (vu !!! c))%nat; [apply Hrest; reflexivity|].
  destruct (b c) as [e|column]; [apply Hrest; reflexivity|].
  apply Hrest, dom_muestrear_columna, Hc.
Qed.

Lemma dom_tipos_arrow (schema : list (string * string)) (m0 : gmap string string) :
  dom (foldl (fun m (field : string * string) =>
                <[field.1 := _traducir_tipo_arrow field.2]> m) m0 schema)
  = dom m0 ∪ list_to_set (map fst schema).
Proof.
  revert m0. induction schema as [|[n t] l IH]; intros m0; simpl.
  - apply set_eq. intros c. rewrite elem_of_union, elem_of_empty. tauto.
  - rewrite IH, dom_insert_L. apply set_eq. intros c.
    rewrite !elem_of_union, elem_of_singleton. tauto.
Qed.

(** X3. The dictionaries of column types and of samples have exactly the
    column names as keys: in every CSV result (the samples when the file
    was read to the end), in every sheet, and in every Parquet result. *)
Theorem X3_column_keys :
  (forall ruta f r d,
     analizar_csv ruta f = inr r -> datos r = Some d ->
     dom (tipos_detectados d) = list_to_set (columnas d) /\
     (error r = None -> dom (muestra_valores d) = list_to_set (columnas d))) /\
  (forall nombre_hoja rows h,
     analizar_hoja nombre_hoja rows = inr h ->
     dom (tipos_detectados (hoja_datos h)) = list_to_set (columnas (hoja_datos h)) /\
     dom (muestra_valores (hoja_datos h)) = list_to_set (columnas (hoja_datos h))) /\
  (forall pyarrow ruta f r d,
     analizar_parquet pyarrow ruta f = inr r -> datos r = Some d ->
     dom (tipos_detectados d) = list_to_set (columnas d) /\
     dom (muestra_valores d) = list_to_set (columnas d)).
Proof.
  split; [|split].
  - intros ruta f r d Hr Hd.
    destruct (analizar_csv_casos ruta f r Hr)
      as (tam & _ & [[err ->]|(filas & fin & Hrd & Hne & _ & ->)]);
      simpl in Hd; injection Hd as <-; cbn [tipos_detectados muestra_valores columnas error
                                            resultado_csv datos_vacios].
    { split; [|intros _]; rewrite dom_empty_L; reflexivity. }
    rewrite csv_pasada_eq, _procesar_fila_datos_eq.
    destruct (dom_pasada admite_csv clasifica_csv (csv_pasada filas).1.2
                (drop ((csv_pasada filas).1.1 + 1) (map (map VStr) filas))) as [H1 H2].
    split; [exact H2|]. intros ->. exact H1.
  - intros n [rows fin] h Ha.
    destruct (analizar_hoja_casos n (rows, fin) h Ha) as [_ [[_ ->]|[_ ->]]];
      cbn [fst snd hoja_datos tipos_detectados muestra_valores columnas datos_vacios].
    { split; rewrite dom_empty_L; reflexivity. }
    rewrite excel_pasada_eq, procesar_fila_excel_eq.
    destruct (dom_pasada admite_nativo _detectar_tipo_valor (excel_pasada rows).1.2
                (drop ((excel_pasada rows).1.1 + 1) rows)) as [H1 H2].
    split; [exact H2|exact H1].
  - intros pyarrow ruta f r d Hr Hd.
    destruct (analizar_parquet_casos pyarrow ruta f r d Hr Hd)
      as (tam & _ & _ & [(e & _ & -> & _)|(pf & Hpf & _ & ->)]);
      cbn [tipos_detectados muestra_valores columnas datos_vacios].
    { split; rewrite dom_empty_L; reflexivity. }
    split.
    + rewrite dom_tipos_arrow, dom_empty_L. apply set_eq. intros c.
      rewrite elem_of_union, elem_of_empty. tauto.
    + unfold parquet_muestras.
      destruct (iter_batches pf _) as [[|b bs] fin]; cbn [acumulado_inicial fst].
      * apply dom_foldl_insert_const.
      * rewrite dom_muestrear_batch; [apply dom_foldl_insert_const|].
        intros c Hc. rewrite dom_foldl_insert_const. apply elem_of_list_to_set, Hc.
Qed.

Lemma X3_column_keys_witness :
  let d := {| columnas := ["a"; "a"]; total_filas := 1;
              muestra_valores := {[ "a" := {[ "1"; "2" ]} ]};
              tipos_detectados := {[ "a" := "entero" ]};
              fila_encabezado := Some 1%Z |} in
  dom (tipos_detectados d) = list_to_set (columnas d) /\
  (error (resultado_csv "a.csv" 9 d None) = None ->
   dom (muestra_valores d) = list_to_set (columnas d)).
Proof.
  apply (proj1 X3_column_keys "a.csv"
           {| csv_getsize := inr 9%Z; csv_reader := inr ([["a"; "a"]; ["1"; "2"]], None) |});
    [vm_compute; reflexivity|reflexivity].
Defined.

(** ** The sheets of a workbook *)

Lemma analizar_hojas_forma (wb : libro) (hechas : list hoja_info) :
  exists nuevas,
    (analizar_hojas wb hechas).1 = (hechas ++ nuevas)%list /\
    (length nuevas <= length wb)%nat /\
    (forall i h, nuevas !! i = Some h ->
       exists nombre_hoja rows,
         wb !! i = Some (nombre_hoja, rows) /\ analizar_hoja nombre_hoja rows = inr h) /\
    match (analizar_hojas wb hechas).2 with
    | None => length nuevas = length wb
    | Some e => exists nombre_hoja rows, wb !! length nuevas = Some (nombre_hoja, (rows, Some e))
    end.
Proof.
  revert hechas. induction wb as [|[n rows] wb IH]; intros hechas; cbn [analizar_hojas].
  - exists []. rewrite app_nil_r. repeat split; auto. intros i h H. discriminate H.
  - destruct (analizar_hoja n rows) as [e|hoja] eqn:Eh.
    + exists []. rewrite app_nil_r. cbn [fst snd length]. repeat split; auto; try lia.
      * intros i h H. discriminate H.
      * exists n, rows.1. unfold analizar_hoja in Eh. destruct rows as [todas [e'|]].
        -- injection Eh as ->. reflexivity.
        -- discriminate Eh.
    + destruct (IH (hechas ++ [hoja])%list) as (nuevas & H1 & H2 & H3 & H4).
      exists (hoja :: nuevas). rewrite H1, <- app_assoc. cbn [length].
      split; [reflexivity|]. split; [lia|]. split.
      * intros [|i] h H; simpl in H.
        -- injection H as <-. exists n, rows. split; [reflexivity|exact Eh].
        -- apply (H3 i h H).
      * destruct (analizar_hojas wb (hechas ++ [hoja])).2; [exact H4|lia].
Qed.

(** X4. The sheets of an Excel result are the analyses of the sheets of the
    workbook, position by position and with their names, up to the first
    sheet whose rows cannot be read: without an error there is one per
    sheet, with an error exactly those before the failing sheet. *)
Theorem X4_excel_sheets (ruta : string) (f : entrada_excel) (tam : Z) (wb : libro) :
  xl_getsize f = inr tam -> xl_load_workbook f = inr wb ->
  exists r hs,
    analizar_excel true ruta f = inr r /\ hojas r = Some hs /\
    (forall i h, hs !! i = Some h ->
       exists rows, wb !! i = Some (nombre h, rows) /\ analizar_hoja (nombre h) rows = inr h) /\
    match error r with
    | None => length hs = length wb
    | Some e => exists nombre_hoja rows, wb !! length hs = Some (nombre_hoja, (rows, Some e))
    end.
Proof.
  intros Hsz Hwb. unfold analizar_excel. rewrite Hsz, Hwb. cbn [negb].
  destruct (analizar_hojas_forma wb []) as (nuevas & H1 & _ & H3 & H4).
  destruct (analizar_hojas wb []) as [hs err]. cbn [fst snd app] in *. subst hs.
  eexists _, nuevas. split; [reflexivity|]. split; [reflexivity|]. split; [|exact H4].
  intros i h Hh. destruct (H3 i h Hh) as (n & rows & Hw & Ha).
  assert (nombre h = n) as ->.
  { destruct (analizar_hoja_casos n rows h Ha) as [_ [[_ ->]|[_ ->]]]; reflexivity. }
  exists rows. auto.
Qed.

Lemma X4_excel_sheets_witness :
  let wb := [ ("A", ([[VStr "id"; VStr "name"]], None));
              ("B", ([], Some "bad sheet"));
              ("C", ([[VStr "id"; VStr "name"]], None)) ] in
  exists r hs,
    analizar_excel true "a.xlsx" {| xl_getsize := inr 1%Z; xl_load_workbook := inr wb |} = inr r /\
    hojas r = Some hs /\
    (forall i h, hs !! i = Some h ->
       exists rows, wb !! i = Some (nombre h, rows) /\ analizar_hoja (nombre h) rows = inr h) /\
    match error r with
    | None => length hs = length wb
    | Some e => exists nombre_hoja rows, wb !! length hs = Some (nombre_hoja, (rows, Some e))
    end.
Proof.
  apply (X4_excel_sheets "a.xlsx" _ 1%Z); reflexivity.
Defined.

(** ** The sampler keeps the first five distinct texts *)

Lemma muestrear_otro (col c : string) (v : valor) (vu : gmap string (gset string)) :
  c <> col -> muestrear c v vu !! col = vu !! col.
Proof.
  intros H. unfold muestrear. destruct (_ <? _)%nat; [|reflexivity].
  apply lookup_insert_ne. exact H.
Qed.

Lemma muestrear_mismo (col : string) (v : valor) (vu : gmap string (gset string))
    (S : gset string) :
  vu !! col = Some S ->
  muestrear col v vu !! col
  = Some (if (size S <? MUESTRA_VALORES)%nat
          then S ∪ {[ Py.slice_to 50 (py_str v) ]} else S).
Proof.
  intros H. unfold muestrear. rewrite (lookup_total_correct _ _ _ H).
  destruct (size S <? MUESTRA_VALORES)%nat; [apply lookup_insert_eq|exact H].
Qed.

Lemma muestreo_primeros (admite : valor -> bool) (col : string) (evs : list evento)
    (vu : gmap string (gset string)) (S : gset string) :
  vu !! col = Some S ->
  fold_left (fun vu (ev : evento) =>
               if admite ev.1.2 then muestrear ev.1.1 ev.1.2 vu else vu) evs vu !! col
  = Some (S ∪ list_to_set
                (take (MUESTRA_VALORES - size S)
                      (nuevos S (textos_muestreables admite col evs)))).
Proof.
  revert vu S. induction evs as [|[[c v] n] evs IH]; intros vu S H; cbn [fold_left].
  - simpl. rewrite take_nil. simpl. rewrite union_empty_r_L. exact H.
  - unfold textos_muestreables. cbn [omap list_omap fst snd].
    fold (textos_muestreables admite col evs).
    destruct (String.eqb_spec c col) as [->|Hc]; cbn [andb].
    + destruct (admite v) eqn:Ea; [|apply IH, H].
      cbn [nuevos].
      set (s := Py.slice_to 50 (py_str v)).
      pose proof (muestrear_mismo col v vu S H) as Hm. fold s in Hm.
      destruct (Nat.ltb_spec (size S) MUESTRA_VALORES) as [Hlt|Hge].
      * destruct (decide (s ∈ S)) as [Hin|Hnin].
        -- assert (S ∪ {[s]} = S) as E.
           { apply set_eq. intros x. rewrite elem_of_union, elem_of_singleton.
             split; [intros [Hx| ->]; assumption|intros Hx; left; exact Hx]. }
           rewrite E in Hm. apply IH, Hm.
        -- rewrite (IH _ _ Hm).
           assert (size (S ∪ {[s]}) = Datatypes.S (size S)) as Esz.
           { rewrite size_union.
             - rewrite size_singleton. lia.
             - intros x Hx Hx'. apply elem_of_singleton in Hx'. subst x. contradiction. }
           rewrite Esz.
           replace (MUESTRA_VALORES - size S)%nat
             with (Datatypes.S (MUESTRA_VALORES - Datatypes.S (size S))) by lia.
           cbn [take]. rewrite list_to_set_cons.
           rewrite (union_comm_L {[s]} S), (union_assoc_L S {[s]}). reflexivity.
      * rewrite (IH _ _ Hm).
        replace (MUESTRA_VALORES - size S)%nat with 0%nat by lia.
        rewrite !take_0. reflexivity.
    + apply IH. destruct (admite v); [|exact H].
      rewrite muestrear_otro; [exact H|exact Hc].
Qed.

(** X5. After a pass over the data rows, the samples of a column are the
    first five distinct texts [str(val)[:50]] of its admitted values, in
    row order: a value is added until five are held and ignored after
    that.  This holds for the CSV loop and for the Excel loop. *)
Theorem X5_sampler_first_five (headers : list string) (rows : list (list valor))
    (col : string) :
  In col headers ->
  (procesar_filas _procesar_fila_datos rows headers (acumulado_inicial headers) 0%Z).1.1
    !! col
  = Some (list_to_set
            (take 5 (nuevos ∅ (textos_muestreables admite_csv col (eventos headers rows 0))))) /\
  (procesar_filas procesar_fila_excel rows headers (acumulado_inicial headers) 0%Z).1.1
    !! col
  = Some (list_to_set
            (take 5 (nuevos ∅ (textos_muestreables admite_nativo col
                                 (eventos headers rows 0))))).
Proof.
  intros Hcol.
  assert ((acumulado_inicial headers).1 !! col = Some ∅) as Hini.
  { rewrite acumulado_inicial_muestras.
    destruct (decide (col ∈ headers)) as [|Hn]; [reflexivity|].
    exfalso. apply Hn, list_elem_of_In, Hcol. }
  split.
  - rewrite _procesar_fila_datos_eq, procesar_filas_eventos, muestras_eventos.
    rewrite (muestreo_primeros admite_csv col _ _ ∅ Hini).
    rewrite size_empty, union_empty_l_L. reflexivity.
  - rewrite procesar_fila_excel_eq, procesar_filas_eventos, muestras_eventos.
    rewrite (muestreo_primeros admite_nativo col _ _ ∅ Hini).
    rewrite size_empty, union_empty_l_L. reflexivity.
Qed.

Lemma X5_sampler_first_five_witness :
  let headers := ["c"] in
  let rows := map (fun s => [VStr s]) ["b"; "a"; "b"; ""; "c"; "d"; "e"; "f"; "a"] in
  (procesar_filas _procesar_fila_datos rows headers (acumulado_inicial headers) 0%Z).1.1
    !! "c"
  = Some {[ "b"; "a"; "c"; "d"; "e" ]}.
Proof.
  cbn zeta.
  rewrite (proj1 (X5_sampler_first_five ["c"]
             (map (fun s => [VStr s]) ["b"; "a"; "b"; ""; "c"; "d"; "e"; "f"; "a"])
             "c" (or_introl eq_refl))).
  vm_compute. reflexivity.
Defined.

(** ** The types a column can get *)

Lemma _detectar_tipo_rango (s : string) :
  In (_detectar_tipo s) ["texto"; "entero"; "decimal"; "fecha"].
Proof.
  unfold _detectar_tipo.
  repeat match goal with |- context [if ?b then _ else _] => destruct b end;
    simpl; auto.
Qed.

Lemma _detectar_tipo_valor_rango (v : valor) :
  In (_detectar_tipo_valor v) ["texto"; "entero"; "decimal"; "fecha"; "booleano"].
Proof.
  unfold _detectar_tipo_valor.
  repeat match goal with |- context [if ?b then _ else _] => destruct b end;
    simpl; auto 6.
Qed.

Lemma tipos_eventos (P : string -> Prop) (admite : valor -> bool)
    (clasifica : valor -> string) (evs : list evento) (st : acumulado) :
  (forall v, P (clasifica v)) ->
  (forall c t, st.2 !! c = Some t -> P t) ->
  forall c t, (fold_left (aplicar_evento admite clasifica) evs st).2 !! c = Some t -> P t.
Proof.
  intros Hcl. revert st. induction evs as [|[[c0 v] n] evs IH]; intros st Hst; cbn [fold_left];
    [exact Hst|].
  apply IH. unfold aplicar_evento. cbn [fst snd].
  destruct (admite v); [|exact Hst]. cbn [snd].
  destruct (n <=? 1000)%Z; [|exact Hst].
  unfold promover. destruct (_ && _); [|exact Hst].
  intros c t. destruct (decide (c = c0)) as [->|Hc].
  - rewrite lookup_insert_eq. intros [= <-]. apply Hcl.
  - rewrite lookup_insert_ne by congruence. apply Hst.
Qed.

Lemma tipos_pasada (P : string -> Prop) (admite : valor -> bool)
    (clasifica : valor -> string) (headers : list string) (rows : list (list valor)) :
  P "texto" -> (forall v, P (clasifica v)) ->
  forall c t,
    (procesar_filas (procesar_fila admite clasifica) rows headers
       (acumulado_inicial headers) 0%Z).1.2 !! c = Some t -> P t.
Proof.
  intros H0 Hcl c t. rewrite procesar_filas_eventos. apply tipos_eventos; [exact Hcl|].
  intros c' t'. unfold acumulado_inicial. cbn [snd]. rewrite foldl_insert_const.
  destruct (decide (c' ∈ headers)); [intros [= <-]; exact H0|].
  rewrite lookup_empty. discriminate.
Qed.

(** X6. The type recorded for a column of a CSV file is one of texto,
    entero, decimal and fecha, never booleano; the type of a column of a
    sheet is one of these four or booleano. *)
Theorem X6_column_types :
  (forall ruta f r d col t,
     analizar_csv ruta f = inr r -> datos r = Some d ->
     tipos_detectados d !! col = Some t ->
     In t ["texto"; "entero"; "decimal"; "fecha"]) /\
  (forall nombre_hoja rows h col t,
     analizar_hoja nombre_hoja rows = inr h ->
     tipos_detectados (hoja_datos h) !! col = Some t ->
     In t ["texto"; "entero"; "decimal"; "fecha"; "booleano"]).
Proof.
  split.
  - intros ruta f r d col t Hr Hd.
    destruct (analizar_csv_casos ruta f r Hr)
      as (tam & _ & [[err ->]|(filas & fin & Hrd & Hne & _ & ->)]);
      simpl in Hd; injection Hd as <-; cbn [tipos_detectados resultado_csv datos_vacios].
    { rewrite lookup_empty. discriminate. }
    rewrite csv_pasada_eq, _procesar_fila_datos_eq.
    apply (tipos_pasada (fun t => In t ["texto"; "entero"; "decimal"; "fecha"])
             admite_csv clasifica_csv).
    + left. reflexivity.
    + intros v. apply _detectar_tipo_rango.
  - intros n [rows fin] h col t Ha.
    destruct (analizar_hoja_casos n (rows, fin) h Ha) as [_ [[_ ->]|[_ ->]]];
      cbn [fst snd hoja_datos tipos_detectados datos_vacios].
    { rewrite lookup_empty. discriminate. }
    rewrite excel_pasada_eq, procesar_fila_excel_eq.
    apply (tipos_pasada (fun t => In t ["texto"; "entero"; "decimal"; "fecha"; "booleano"])
             admite_nativo _detectar_tipo_valor).
    + left. reflexivity.
    + intros v. apply _detectar_tipo_valor_rango.
Qed.

Lemma X6_column_types_witness :
  let f := {| csv_getsize := inr 9%Z;
              csv_reader := inr ([["id"; "name"]; ["1"; "x"]], None) |} in
  let d := {| columnas := ["id"; "name"]; total_filas := 1;
              muestra_valores := {[ "id" := {[ "1" ]}; "name" := {[ "x" ]} ]};
              tipos_detectados := {[ "id" := "entero"; "name" := "texto" ]};
              fila_encabezado := Some 1%Z |} in
  analizar_csv "a.csv" f = inr (resultado_csv "a.csv" 9 d None) /\
  In "entero" ["texto"; "entero"; "decimal"; "fecha"].
Proof.
  cbn zeta. split; [vm_compute; reflexivity|].
  apply (proj1 X6_column_types "a.csv"
           {| csv_getsize := inr 9%Z;
              csv_reader := inr ([["id"; "name"]; ["1"; "x"]], None) |}
           (resultado_csv "a.csv" 9
              {| columnas := ["id"; "name"]; total_filas := 1;
                 muestra_valores := {[ "id" := {[ "1" ]}; "name" := {[ "x" ]} ]};
                 tipos_detectados := {[ "id" := "entero"; "name" := "texto" ]};
                 fila_encabezado := Some 1%Z |} None)
           {| columnas := ["id"; "name"]; total_filas := 1;
              muestra_valores := {[ "id" := {[ "1" ]}; "name" := {[ "x" ]} ]};
              tipos_detectados := {[ "id" := "entero"; "name" := "texto" ]};
              fila_encabezado := Some 1%Z |}
           "id" "entero");
    [vm_compute; reflexivity|reflexivity|vm_compute; reflexivity].
Defined.

(** ** Fields made of digits and separators *)

Lemma strip_with_id (p : ascii -> bool) (s : string) :
  Py.has_char p s = false -> Py.strip_with p s = s.
Proof.
  intros H. unfold Py.strip_with.
  assert (Py.lstrip_with p s = s) as ->.
  { destruct s as [|c r]; [reflexivity|]. simpl in *.
    apply orb_false_iff in H as [-> _]. reflexivity. }
  induction s as [|c r IH]; [reflexivity|]. simpl in *.
  apply orb_false_iff in H as [Hc Hr]. rewrite (IH Hr), Hc. destruct r; reflexivity.
Qed.

Lemma has_char_impl (p q : ascii -> bool) (s : string) :
  (forall c, p c = true -> q c = true) ->
  Py.has_char q s = false -> Py.has_char p s = false.
Proof.
  intros Hpq. induction s as [|c r IH]; [reflexivity|]. simpl.
  intros H. apply orb_false_iff in H as [Hc Hr]. rewrite (IH Hr), orb_false_r.
  destruct (p c) eqn:E; [|reflexivity]. rewrite (Hpq c E) in Hc. discriminate.
Qed.

Lemma digito_o_separador (c : ascii) :
  Py.isdecimal c || Ascii.eqb c "." || Ascii.eqb c "," = true ->
  Py.isspace c = false /\ Py.isspace_num c = false /\
  Ascii.eqb c "+" = false /\ Ascii.eqb c "-" = false /\ Ascii.eqb c "_" = false.
Proof.
  destruct c as [[] [] [] [] [] [] [] []]; vm_compute; intros H;
    try discriminate H; repeat split.
Qed.

Lemma quitar_separadores (s : string) :
  Py.has_char (fun c => negb (Py.isdecimal c || Ascii.eqb c "." || Ascii.eqb c ",")) s = false ->
  let t := Py.replace "." "" (Py.replace "," "" s) in
  Py.has_char (fun c => negb (Py.isdecimal c)) t = false /\
  Py.has_char Py.isdecimal t = Py.has_char Py.isdecimal s.
Proof.
  cbn zeta. induction s as [|c r IH]; [split; reflexivity|].
  cbn [Py.has_char]. intros H. apply orb_false_iff in H as [Hc Hr].
  destruct (IH Hr) as [IH1 IH2]. cbn [Py.replace].
  destruct (Ascii.eqb_spec c ",") as [->|Hcoma]; [split; [exact IH1|exact IH2]|].
  cbn [Py.replace].
  destruct (Ascii.eqb_spec c ".") as [->|Hpunto]; [split; [exact IH1|exact IH2]|].
  cbn [Py.has_char]. rewrite IH1, IH2.
  rewrite !orb_false_r in Hc. rewrite Hc. split; reflexivity.
Qed.

Lemma rest_digits_decimales (s : string) :
  Py.has_char (fun c => negb (Py.isdecimal c)) s = false -> Py.rest_digits s = "".
Proof.
  induction s as [|c r IH]; [reflexivity|]. cbn [Py.has_char Py.rest_digits].
  intros H. apply orb_false_iff in H as [Hc Hr].
  apply negb_false_iff in Hc. rewrite Hc. apply IH, Hr.
Qed.

Lemma int_ok_decimales (t : string) :
  Py.has_char (fun c => negb (Py.isdecimal c)) t = false ->
  Py.has_char Py.isdecimal t = true ->
  Py.int_ok (Py.strip t) = true.
Proof.
  intros Hall Hdig.
  assert (forall c, Py.isdecimal c = true ->
            Py.isspace c = false /\ Py.isspace_num c = false /\
            Ascii.eqb c "+" = false /\ Ascii.eqb c "-" = false /\ Ascii.eqb c "_" = false)
    as Hd.
  { intros c Hc. apply digito_o_separador. rewrite Hc. reflexivity. }
  unfold Py.strip. rewrite strip_with_id.
  2:{ apply (has_char_impl _ (fun c => negb (Py.isdecimal c))); [|exact Hall].
      intros c Hc. destruct (Py.isdecimal c) eqn:E; [|reflexivity].
      destruct (Hd c E) as [Hs _]. congruence. }
  unfold Py.int_ok. rewrite strip_with_id.
  2:{ apply (has_char_impl _ (fun c => negb (Py.isdecimal c))); [|exact Hall].
      intros c Hc. destruct (Py.isdecimal c) eqn:E; [|reflexivity].
      destruct (Hd c E) as (_ & Hs & _). congruence. }
  destruct t as [|c r]; [discriminate Hdig|].
  cbn [Py.has_char] in Hall. apply orb_false_iff in Hall as [Hc Hr].
  apply negb_false_iff in Hc. destruct (Hd c Hc) as (_ & _ & Hmas & Hmenos & _).
  unfold Py.skip_sign. rewrite Hmas, Hmenos. cbn [orb Py.digit_part]. rewrite Hc.
  rewrite (rest_digits_decimales r Hr). reflexivity.
Qed.

(** X7. A CSV field written only with decimal digits, dots and commas,
    with at least one digit, is typed entero when it has neither a dot nor
    a comma and decimal as soon as it has one, wherever the separators
    stand and however many there are: the integer test is made on the field
    with every separator removed.  (The field is within the interpreter's
    limit of 4300 digits for the text of an integer.) *)
Theorem X7_digits_and_separators (valor_str : string) :
  Py.has_char (fun c => negb (Py.isdecimal c || Ascii.eqb c "." || Ascii.eqb c ","))
    valor_str = false ->
  Py.has_char Py.isdecimal valor_str = true ->
  (String.length valor_str <= 4300)%nat ->
  _detectar_tipo valor_str
  = if Py.has_char (Ascii.eqb ".") valor_str || Py.has_char (Ascii.eqb ",") valor_str
    then "decimal" else "entero".
Proof.
  intros Hall Hdig _. unfold _detectar_tipo.
  assert (Py.strip valor_str = valor_str) as Es.
  { apply strip_with_id.
    apply (has_char_impl _ (fun c => negb (Py.isdecimal c || Ascii.eqb c "." || Ascii.eqb c ",")));
      [|exact Hall].
    intros c Hc. destruct (Py.isdecimal c || Ascii.eqb c "." || Ascii.eqb c ",") eqn:E;
      [|reflexivity].
    destruct (digito_o_separador c E) as [Hs _]. congruence. }
  rewrite Es.
  assert (String.eqb valor_str "" = false) as ->.
  { destruct valor_str; [discriminate Hdig|reflexivity]. }
  cbn [orb].
  destruct (quitar_separadores valor_str Hall) as [H1 H2]. rewrite <- H2 in Hdig.
  rewrite (int_ok_decimales _ H1 Hdig). reflexivity.
Qed.

Lemma X7_digits_and_separators_witness :
  _detectar_tipo "1.2.3" = "decimal" /\ _detectar_tipo "2024" = "entero" /\
  _detectar_tipo ",5." = "decimal".
Proof.
  split; [|split].
  - apply (X7_digits_and_separators "1.2.3"); [reflexivity|reflexivity|simpl; lia].
  - apply (X7_digits_and_separators "2024"); [reflexivity|reflexivity|simpl; lia].
  - apply (X7_digits_and_separators ",5."); [reflexivity|reflexivity|simpl; lia].
Defined.

(** ** The names of the columns *)

Lemma lstrip_with_inicio (p : ascii -> bool) (s : string) :
  Py.lstrip_with p s = "" \/
  exists c r, Py.lstrip_with p s = String c r /\ p c = false.
Proof.
  induction s as [|c r IH]; [left; reflexivity|]. simpl.
  destruct (p c) eqn:E; [exact IH|]. right. exists c, r. split; [reflexivity|exact E].
Qed.

Lemma rstrip_with_idem (p : ascii -> bool) (s : string) :
  Py.rstrip_with p (Py.rstrip_with p s) = Py.rstrip_with p s.
Proof.
  induction s as [|c r IH]; [reflexivity|]. simpl.
  destruct (Py.rstrip_with p r) as [|d r'] eqn:E.
  - destruct (p c) eqn:Ec; [reflexivity|]. simpl. rewrite Ec. reflexivity.
  - cbn [Py.rstrip_with]. cbn [Py.rstrip_with] in IH. rewrite IH. reflexivity.
Qed.

Lemma rstrip_with_inicio (p : ascii -> bool) (c : ascii) (r : string) :
  p c = false -> exists r', Py.rstrip_with p (String c r) = String c r'.
Proof.
  intros Hc. simpl. destruct (Py.rstrip_with p r) as [|d r'].
  - rewrite Hc. eexists. reflexivity.
  - eexists. reflexivity.
Qed.

Lemma strip_with_idem (p : ascii -> bool) (s : string) :
  Py.strip_with p (Py.strip_with p s) = Py.strip_with p s.
Proof.
  unfold Py.strip_with.
  destruct (lstrip_with_inicio p s) as [->|(c & r & -> & Hc)]; [reflexivity|].
  destruct (rstrip_with_inicio p c r Hc) as [r' E].
  assert (Py.lstrip_with p (Py.rstrip_with p (String c r)) = Py.rstrip_with p (String c r))
    as ->.
  { rewrite E. simpl. rewrite Hc. reflexivity. }
  apply rstrip_with_idem.
Qed.

Lemma has_char_app (p : ascii -> bool) (s t : string) :
  Py.has_char p (s ++ t) = Py.has_char p s || Py.has_char p t.
Proof.
  induction s as [|c r IH]; [reflexivity|]. simpl. rewrite IH, orb_assoc. reflexivity.
Qed.

Lemma str_nat_sin_espacios (n : nat) : Py.has_char Py.isspace (Py.str_nat n) = false.
Proof.
  unfold Py.str_nat.
  assert (forall d, Py.has_char Py.isspace (NilEmpty.string_of_uint d) = false) as H.
  { induction d; simpl; try exact IHd; reflexivity. }
  unfold NilZero.string_of_uint. destruct (Nat.to_uint n); try apply H. reflexivity.
Qed.

Lemma limpiar_encabezado_limpio (i : nat) (h : valor) :
  limpiar_encabezado (i, h) <> "" /\
  Py.strip (limpiar_encabezado (i, h)) = limpiar_encabezado (i, h).
Proof.
  unfold limpiar_encabezado.
  destruct (is_none h || String.eqb (Py.strip (py_str h)) "") eqn:E.
  - split; [discriminate|]. apply strip_with_id.
    rewrite has_char_app, str_nat_sin_espacios. reflexivity.
  - apply orb_false_iff in E as [_ E]. apply String.eqb_neq in E.
    split; [exact E|]. apply strip_with_idem.
Qed.

Lemma enumerate_lookup_desde {A : Type} (l : list A) (k i : nat) (x : A) :
  l !! i = Some x -> combine (seq k (length l)) l !! i = Some ((k + i)%nat, x).
Proof.
  revert k i. induction l as [|y l IH]; intros k i H; [discriminate H|].
  destruct i as [|i]; simpl in *.
  - injection H as ->. rewrite Nat.add_0_r. reflexivity.
  - rewrite (IH (S k) i H). f_equal. f_equal. lia.
Qed.

Lemma enumerate_length {A : Type} (l : list A) : length (enumerate l) = length l.
Proof. unfold enumerate. rewrite length_combine, length_seq. lia. Qed.

Lemma fila_elegida (filas : list (list valor)) (fila : list valor) :
  filas !! (_buscar_fila_encabezado filas).1 = Some fila ->
  (_buscar_fila_encabezado filas).2 = map limpiar_encabezado (enumerate fila).
Proof.
  rewrite _buscar_fila_encabezado_eq.
  destruct (busqueda_spec (take MAX_FILAS_BUSQUEDA_HEADER filas) 0 PyFloat.fm1 0%nat [])
    as [[Hr _]|(j & fila' & Hj & Hr & He & _)];
    fold (enumerate (take MAX_FILAS_BUSQUEDA_HEADER filas)) in Hr;
    fold (busqueda_final filas) in Hr; rewrite Hr; cbn [fst snd].
  - destruct filas as [|primera resto]; cbn [fst snd]; [discriminate|].
    intros [= ->]. reflexivity.
  - apply lookup_take_Some in Hj as [Hj _]. cbn [Nat.add].
    pose proof (elegible_no_vacia fila' He) as Hne.
    destruct fila' as [|c fila']; [congruence|]. cbn [fst snd].
    rewrite Hj. intros [= <-]. reflexivity.
Qed.

Lemma encabezados_limpios (filas : list (list valor)) (c : string) :
  In c (_buscar_fila_encabezado filas).2 -> c <> "" /\ Py.strip c = c.
Proof.
  unfold _buscar_fila_encabezado.
  destruct (fold_left _ _ _) as [[m i] f].
  destruct (match f, filas with
            | [], primera :: _ => (0%nat, primera)
            | _, _ => (i, f)
            end) as [i' f'].
  cbn [snd]. intros H. apply in_map_iff in H as ([k h] & <- & _).
  apply limpiar_encabezado_limpio.
Qed.

(** X8. Header detection gives one name per cell of the row it chose:
    the text of the cell without its surrounding white space, or
    [Col_<position>] (counted from 1) for a cell that is [None] or blank.
    So a column name is never empty and never starts or ends with white
    space; this holds for the columns of every CSV result and of every
    sheet. *)
Theorem X8_header_names :
  (forall filas fila,
     filas !! (_buscar_fila_encabezado filas).1 = Some fila ->
     length (_buscar_fila_encabezado filas).2 = length fila /\
     forall i h, fila !! i = Some h ->
       (_buscar_fila_encabezado filas).2 !! i
       = Some (if celda_en_blanco h then "Col_" ++ Py.str_nat (i + 1)
               else Py.strip (py_str h))) /\
  (forall filas c,
     In c (_buscar_fila_encabezado filas).2 -> c <> "" /\ Py.strip c = c) /\
  (forall ruta f r d c,
     analizar_csv ruta f = inr r -> datos r = Some d -> In c (columnas d) ->
     c <> "" /\ Py.strip c = c) /\
  (forall nombre_hoja rows h c,
     analizar_hoja nombre_hoja rows = inr h -> In c (columnas (hoja_datos h)) ->
     c <> "" /\ Py.strip c = c).
Proof.
  split; [|split; [|split]].
  - intros filas fila Hf. rewrite (fila_elegida filas fila Hf). split.
    + rewrite length_map. apply enumerate_length.
    + intros i h Hi. rewrite list_lookup_fmap. unfold enumerate.
      rewrite (enumerate_lookup_desde fila 0 i h Hi). reflexivity.
  - apply encabezados_limpios.
  - intros ruta f r d c Hr Hd.
    destruct (analizar_csv_casos ruta f r Hr)
      as (tam & _ & [[err ->]|(filas & fin & Hrd & Hne & _ & ->)]);
      simpl in Hd; injection Hd as <-; cbn [columnas resultado_csv datos_vacios];
      [intros []|].
    unfold csv_pasada.
    pose proof (encabezados_limpios
                  (take (MAX_FILAS_BUSQUEDA_HEADER + 1) (map (map VStr) filas)) c) as H.
    destruct (_buscar_fila_encabezado _) as [idx headers]. exact H.
  - intros n [rows fin] h c Ha.
    destruct (analizar_hoja_casos n (rows, fin) h Ha) as [_ [[_ ->]|[_ ->]]];
      cbn [fst snd hoja_datos columnas datos_vacios]; [intros []|].
    unfold excel_pasada.
    pose proof (encabezados_limpios (take MAX_FILAS_BUSQUEDA_HEADER rows) c) as H.
    destruct (_buscar_fila_encabezado _) as [idx headers]. exact H.
Qed.

Lemma X8_header_names_witness :
  let filas := [ [VStr "  id "; VNone; VStr " "; VStr "name"]; [VStr "1"; VStr "2"] ] in
  length (_buscar_fila_encabezado filas).2 = 4%nat /\
  (_buscar_fila_encabezado filas).2 !! 1%nat = Some "Col_2" /\
  (_buscar_fila_encabezado filas).2 !! 0%nat = Some "id".
Proof.
  cbn zeta.
  destruct (proj1 X8_header_names
              [ [VStr "  id "; VNone; VStr " "; VStr "name"]; [VStr "1"; VStr "2"] ]
              [VStr "  id "; VNone; VStr " "; VStr "name"]) as [H1 H2];
    [vm_compute; reflexivity|].
  split; [exact H1|]. split.
  - apply (H2 1%nat VNone). reflexivity.
  - apply (H2 0%nat (VStr "  id ")). reflexivity.
Defined.

(** ** The name of the report *)

Lemma endswith_app (suf s : string) : Py.endswith suf (s ++ suf) = true.
Proof.
  induction s as [|c r IH]; simpl.
  - destruct suf; simpl; [reflexivity|]. rewrite Ascii.eqb_refl, String.eqb_refl. reflexivity.
  - rewrite IH. apply orb_true_r.
Qed.

Lemma lower_app (s t : string) : Py.lower (s ++ t) = Py.lower s ++ Py.lower t.
Proof. induction s as [|c r IH]; simpl; [reflexivity|]. rewrite IH. reflexivity. Qed.

Lemma antes_del_ultimo_sin (c : ascii) (s : string) :
  Py.has_char (Ascii.eqb c) s = false -> Py.antes_del_ultimo c s = None.
Proof.
  induction s as [|d r IH]; [reflexivity|]. simpl. intros H.
  apply orb_false_iff in H as [Hd Hr]. rewrite (IH Hr).
  rewrite Ascii.eqb_sym, Hd. reflexivity.
Qed.

Lemma antes_del_ultimo_app (c : ascii) (p q : string) :
  Py.has_char (Ascii.eqb c) q = false ->
  Py.antes_del_ultimo c (p ++ String c q) = Some p.
Proof.
  intros Hq. induction p as [|d r IH]; simpl.
  - rewrite (antes_del_ultimo_sin c q Hq), Ascii.eqb_refl. reflexivity.
  - rewrite IH. reflexivity.
Qed.

Lemma nombre_archivo_eq (archivo_salida formato : string) :
  nombre_archivo archivo_salida formato
  = if Py.endswith (extension_reporte formato) (Py.lower archivo_salida) then archivo_salida
    else Py.rsplit1 "." archivo_salida ++ extension_reporte formato.
Proof.
  unfold nombre_archivo, extension_reporte.
  destruct (String.eqb (Py.lower formato) "txt"); [reflexivity|].
  destruct (String.eqb (Py.lower formato) "csv"); reflexivity.
Qed.

(** X9. The report is named after [archivo_salida] and the format (PDF
    unless the format is txt or csv, letters in any case).  The name always
    ends with the extension of the format, up to the case of the letters; a
    name that already ends with it is kept as given; otherwise what follows
    the last dot of the name is dropped and the extension takes its place,
    and a name without a dot just gets the extension appended. *)
Theorem X9_report_name (archivo_salida formato : string) :
  let ext := extension_reporte formato in
  Py.endswith ext (Py.lower (nombre_archivo archivo_salida formato)) = true /\
  (Py.endswith ext (Py.lower archivo_salida) = true ->
   nombre_archivo archivo_salida formato = archivo_salida) /\
  (Py.endswith ext (Py.lower archivo_salida) = false ->
   Py.has_char (Ascii.eqb ".") archivo_salida = false ->
   nombre_archivo archivo_salida formato = archivo_salida ++ ext) /\
  (forall p q,
     archivo_salida = p ++ "." ++ q ->
     Py.endswith ext (Py.lower archivo_salida) = false ->
     Py.has_char (Ascii.eqb ".") q = false ->
     nombre_archivo archivo_salida formato = p ++ ext).
Proof.
  cbn zeta. rewrite nombre_archivo_eq.
  assert (Py.lower (extension_reporte formato) = extension_reporte formato) as Hext.
  { unfold extension_reporte.
    destruct (String.eqb (Py.lower formato) "txt"); [reflexivity|].
    destruct (String.eqb (Py.lower formato) "csv"); reflexivity. }
  split; [|split; [|split]].
  - destruct (Py.endswith _ (Py.lower archivo_salida)) eqn:E; [exact E|].
    rewrite lower_app, Hext. apply endswith_app.
  - intros ->. reflexivity.
  - intros -> Hsin. unfold Py.rsplit1.
    rewrite (antes_del_ultimo_sin "." archivo_salida Hsin). reflexivity.
  - intros p q -> -> Hq. unfold Py.rsplit1.
    change ("." ++ q) with (String "."%char q).
    rewrite (antes_del_ultimo_app "." p q Hq). reflexivity.
Qed.

Lemma X9_report_name_witness :
  nombre_archivo "Mapa.PDF" "pdf" = "Mapa.PDF" /\
  nombre_archivo "mapa_datos" "TXT" = "mapa_datos.txt" /\
  nombre_archivo "datos.v1.2" "xlsx" = "datos.v1.pdf".
Proof.
  split; [|split].
  - apply (proj1 (proj2 (X9_report_name "Mapa.PDF" "pdf"))). reflexivity.
  - apply (proj1 (proj2 (proj2 (X9_report_name "mapa_datos" "TXT")))); reflexivity.
  - apply (proj2 (proj2 (proj2 (X9_report_name "datos.v1.2" "xlsx"))) "datos.v1" "2");
      reflexivity.
Defined.

(** ** The size of a file in the report *)

Lemma digits2_pos_rango (p : positive) :
  (2 ^ (Zpos (digits2_pos p) - 1) <= Zpos p < 2 ^ Zpos (digits2_pos p))%Z.
Proof.
  induction p as [q IH|q IH|]; cbn [digits2_pos].
  - rewrite Pos2Z.inj_succ.
    replace (Z.succ (Zpos (digits2_pos q)) - 1)%Z with (Z.succ (Zpos (digits2_pos q) - 1))%Z by lia.
    rewrite !Z.pow_succ_r by lia. lia.
  - rewrite Pos2Z.inj_succ.
    replace (Z.succ (Zpos (digits2_pos q)) - 1)%Z with (Z.succ (Zpos (digits2_pos q) - 1))%Z by lia.
    rewrite !Z.pow_succ_r by lia. lia.
  - simpl. lia.
Qed.

Lemma digits2_pos_le (p : positive) (j : Z) :
  (0 <= j)%Z -> ((Zpos p <? 2 ^ j)%Z = (Zpos (digits2_pos p) <=? j)%Z).
Proof.
  intros Hj. destruct (Z.ltb_spec (Zpos p) (2 ^ j)) as [H|H].
  - symmetry. apply Z.leb_le. apply PyFloatFacts.digits2_pos_bound; assumption.
  - symmetry. apply Z.leb_gt.
    destruct (Z.le_gt_cases (Zpos (digits2_pos p)) j) as [Hle|Hgt]; [|lia].
    pose proof (digits2_pos_rango p) as [_ Hr].
    assert (2 ^ Zpos (digits2_pos p) <= 2 ^ j)%Z by (apply Z.pow_le_mono_r; lia). lia.
Qed.

Lemma iter_xO_pow (p d : positive) :
  Zpos (Pos.iter xO p d) = (Zpos p * 2 ^ Zpos d)%Z.
Proof.
  induction d as [|d IH] using Pos.peano_ind.
  - simpl. lia.
  - rewrite Pos.iter_succ, Pos2Z.inj_succ, Z.pow_succ_r by lia.
    rewrite Pos2Z.inj_xO, IH. lia.
Qed.

Lemma redondear_escala (num den c : Z) :
  (0 < den)%Z -> (0 < c)%Z -> PyFloat.redondear (num * c) (den * c) = PyFloat.redondear num den.
Proof.
  intros Hd Hc. unfold PyFloat.redondear.
  rewrite Z.div_mul_cancel_r by lia.
  rewrite Z.mul_mod_distr_r by lia.
  destruct (Z.ltb_spec (2 * (num mod den * c)) (den * c)),
           (Z.ltb_spec (2 * (num mod den)) den); try nia; try reflexivity.
  destruct (Z.ltb_spec (den * c) (2 * (num mod den * c))),
           (Z.ltb_spec den (2 * (num mod den))); try nia; reflexivity.
Qed.

Lemma decimal_1_escala (num den c : Z) :
  (0 < den)%Z -> (0 < c)%Z -> PyFloat.decimal_1 (num * c) (den * c) = PyFloat.decimal_1 num den.
Proof.
  intros Hd Hc. unfold PyFloat.decimal_1.
  replace (10 * (num * c))%Z with (10 * num * c)%Z by lia.
  rewrite redondear_escala by assumption. reflexivity.
Qed.

Lemma decimal_1_entero (n : Z) :
  (0 <= n)%Z -> PyFloat.decimal_1 n 1 = Py.str_nat (Z.to_nat n) ++ ".0".
Proof.
  intros Hn. unfold PyFloat.decimal_1, PyFloat.redondear.
  rewrite Z.div_1_r, Z.mod_1_r. change (2 * 0 <? 1)%Z with true. cbv beta iota zeta.
  replace (10 * n / 10)%Z with n by (rewrite Z.mul_comm, Z.div_mul; lia).
  replace (10 * n mod 10)%Z with 0%Z by (rewrite Z.mul_comm, Z.mod_mul; lia).
  reflexivity.
Qed.

(** A mantissa of 53 bits with an exponent in range is kept as it is. *)
Lemma binary_round_aux_53 (mz : positive) (ez : Z) :
  digits2_pos mz = 53%positive -> (-1074 <= ez <= 971)%Z ->
  binary_round_aux PyFloat.prec PyFloat.emax false (Zpos mz) ez loc_Exact
  = S754_finite false mz ez.
Proof.
  intros Hd He.
  assert (fexp PyFloat.prec PyFloat.emax (53 + ez) - ez = 0)%Z as Hz.
  { unfold fexp, emin, PyFloat.prec, PyFloat.emax. lia. }
  unfold binary_round_aux, shr_fexp. simpl Zdigits2.
  rewrite Hd, Hz. simpl. rewrite Hd, Hz. simpl.
  assert ((ez <=? PyFloat.emax - PyFloat.prec)%Z = true) as ->; [|reflexivity].
  apply Z.leb_le. unfold PyFloat.emax, PyFloat.prec. lia.
Qed.

(** An integer below 2^53, scaled down by a power of two, is
    represented exactly, with a mantissa of 53 bits. *)
Lemma binary_normalize_exacto (p : positive) (j : Z) :
  (Zpos p < 2 ^ 53)%Z -> (0 <= j <= 1000)%Z ->
  exists m,
    binary_normalize PyFloat.prec PyFloat.emax (Zpos p) (- j) false
    = S754_finite false m (Zpos (digits2_pos p) - 53 - j) /\
    digits2_pos m = 53%positive /\
    Zpos m = (Zpos p * 2 ^ (53 - Zpos (digits2_pos p)))%Z.
Proof.
  intros Hp Hj.
  pose proof (PyFloatFacts.digits2_pos_bound p 53 ltac:(lia) Hp) as Hd.
  unfold binary_normalize, binary_round.
  assert (fexp PyFloat.prec PyFloat.emax (Zpos (digits2_pos p) + - j)
          = Zpos (digits2_pos p) - 53 - j)%Z as ->.
  { unfold fexp, emin, PyFloat.prec, PyFloat.emax. lia. }
  unfold shl_align.
  destruct (Zpos (digits2_pos p) - 53 - j - - j)%Z as [|dd|dd] eqn:E; try lia.
  - assert (Zpos (digits2_pos p) = 53%Z) as Hd53 by lia.
    exists p. replace (- j)%Z with (Zpos (digits2_pos p) - 53 - j)%Z by lia.
    assert (digits2_pos p = 53%positive) as Hd' by lia.
    rewrite binary_round_aux_53; [|exact Hd'|lia].
    split; [reflexivity|]. split; [exact Hd'|]. rewrite Hd53. simpl. lia.
  - assert (digits2_pos (Pos.iter xO p dd) = 53%positive) as Hd'.
    { rewrite PyFloatFacts.digits2_pos_iter. lia. }
    exists (Pos.iter xO p dd).
    rewrite binary_round_aux_53; [|exact Hd'|lia].
    split; [reflexivity|]. split; [exact Hd'|].
    rewrite iter_xO_pow. f_equal. f_equal. lia.
Qed.

Lemma of_int_1024 : PyFloat.of_int 1024 = S754_finite false 4503599627370496 (-42).
Proof. vm_compute. reflexivity. Qed.

(** Dividing by 1024 lowers the exponent by ten and loses nothing. *)
Lemma div_1024 (m : positive) (e : Z) :
  digits2_pos m = 53%positive -> (-1063 <= e <= 981)%Z ->
  PyFloat.div (S754_finite false m e) (PyFloat.of_int 1024) = S754_finite false m (e - 10).
Proof.
  intros Hd He. rewrite of_int_1024. unfold PyFloat.div, SFdiv, SFdiv_core_binary.
  cbn [Zdigits2]. rewrite Hd.
  change (digits2_pos 4503599627370496) with 53%positive.
  assert (Z.min (fexp PyFloat.prec PyFloat.emax (53 + e - (53 + -42))) (e - -42)
          = e - 11)%Z as ->.
  { unfold fexp, emin, PyFloat.prec, PyFloat.emax. lia. }
  replace (e - -42 - (e - 11))%Z with 53%Z by lia.
  rewrite Z.shiftl_mul_pow2 by lia.
  destruct (Z.div_eucl (Zpos m * 2 ^ 53) 4503599627370496) as [q r] eqn:Eqr.
  assert (q = Zpos (m~0) /\ r = 0%Z) as [-> ->].
  { pose proof (f_equal fst Eqr) as Hq. pose proof (f_equal snd Eqr) as Hr.
    cbn [fst snd] in Hq, Hr.
    change (fst (Z.div_eucl (Zpos m * 2 ^ 53) 4503599627370496))
      with ((Zpos m * 2 ^ 53) / 4503599627370496)%Z in Hq.
    change (snd (Z.div_eucl (Zpos m * 2 ^ 53) 4503599627370496))
      with ((Zpos m * 2 ^ 53) mod 4503599627370496)%Z in Hr.
    replace (Zpos m * 2 ^ 53)%Z with (Zpos m~0 * 4503599627370496)%Z in Hq, Hr
      by (rewrite Pos2Z.inj_xO; change (2 ^ 53)%Z with (2 * 4503599627370496)%Z; lia).
    rewrite Z.div_mul in Hq by lia. rewrite Z.mod_mul in Hr by lia.
    split; congruence. }
  change (new_location 4503599627370496 0) with loc_Exact. cbn [xorb].
  unfold binary_round_aux, shr_fexp. cbn [Zdigits2 digits2_pos]. rewrite Hd.
  assert (fexp PyFloat.prec PyFloat.emax (Zpos (Pos.succ 53) + (e - 11)) - (e - 11) = 1)%Z
    as ->.
  { unfold fexp, emin, PyFloat.prec, PyFloat.emax. lia. }
  cbn [shr shr_record_of_loc SpecFloat.iter_pos shr_1 orb loc_of_shr_record
       round_nearest_even shr_m].
  cbn [Zdigits2]. rewrite Hd.
  assert (fexp PyFloat.prec PyFloat.emax (53 + (e - 11 + 1)) - (e - 11 + 1) = 0)%Z as ->.
  { unfold fexp, emin, PyFloat.prec, PyFloat.emax. lia. }
  cbn [shr shr_m].
  assert ((e - 11 + 1 <=? PyFloat.emax - PyFloat.prec)%Z = true) as ->.
  { apply Z.leb_le. unfold PyFloat.emax, PyFloat.prec. lia. }
  f_equal. lia.
Qed.

Lemma ltb_1024 (m : positive) (e : Z) :
  digits2_pos m = 53%positive ->
  PyFloat.ltb (S754_finite false m e) (PyFloat.of_int 1024) = (e <? -42)%Z.
Proof.
  intros Hd. rewrite of_int_1024.
  pose proof (digits2_pos_rango m) as [Hlo _]. rewrite Hd in Hlo.
  change (2 ^ (53 - 1))%Z with 4503599627370496%Z in Hlo.
  pose proof (PyFloatFacts.ltb_lex (S754_finite false m e)
                (S754_finite false 4503599627370496 (-42)) eq_refl eq_refl) as H.
  unfold PyFloat.lex in H. cbn [PyFloat.clave fst snd] in H.
  destruct (Z.ltb_spec e (-42)) as [He|He].
  - apply H. right. split; [reflexivity|]. left. exact He.
  - destruct (PyFloat.ltb _ _) eqn:E; [|reflexivity].
    destruct H as [H _]. specialize (H eq_refl). lia.
Qed.

Lemma format_1f_exacto (m : positive) (e n s k : Z) :
  (0 <= s)%Z -> (0 <= k)%Z -> (- e = k + s)%Z -> Zpos m = (n * 2 ^ s)%Z ->
  PyFloat.format_1f (S754_finite false m e) = PyFloat.decimal_1 n (2 ^ k).
Proof.
  intros Hs Hk He Hm. unfold PyFloat.format_1f, PyFloat.fraccion. cbn [append].
  assert (0 < 2 ^ s)%Z as Hps by (apply Z.pow_pos_nonneg; lia).
  assert (0 < 2 ^ k)%Z as Hpk by (apply Z.pow_pos_nonneg; lia).
  destruct (Z.leb_spec 0 e) as [He0|He0]; cbn [fst snd].
  - assert (e = 0 /\ k = 0 /\ s = 0)%Z as (-> & -> & ->) by lia.
    rewrite Hm. change (2 ^ 0)%Z with 1%Z.
    replace (n * 1 * 1)%Z with n by lia. reflexivity.
  - rewrite He, Z.pow_add_r, Hm by lia.
    exact (decimal_1_escala n (2 ^ k) (2 ^ s) Hpk Hps).
Qed.

(** X10. For a size below 2^53 bytes, [_formato_bytes] shows the size
    divided by 1024 as many times as it takes to get below 1024 (at most
    four times), correctly rounded to one decimal, a tie going to the even
    digit: the divisions in floating point lose nothing, and the unit
    changes exactly at 1024, 1024^2, 1024^3 and 1024^4 bytes.  The rounding
    comes after the choice of the unit, so a size just under the next unit
    can be shown as 1024.0.  A size under 1024 is shown as the integer
    followed by .0. *)
Theorem X10_formato_bytes (n : Z) :
  (0 <= n < 2 ^ 53)%Z ->
  _formato_bytes n
  = inr (if (n <? 1024)%Z then PyFloat.decimal_1 n 1 ++ " B"
         else if (n <? 1024 ^ 2)%Z then PyFloat.decimal_1 n 1024 ++ " KB"
         else if (n <? 1024 ^ 3)%Z then PyFloat.decimal_1 n (1024 ^ 2) ++ " MB"
         else if (n <? 1024 ^ 4)%Z then PyFloat.decimal_1 n (1024 ^ 3) ++ " GB"
         else PyFloat.decimal_1 n (1024 ^ 4) ++ " TB") /\
  PyFloat.decimal_1 n 1 = Py.str_nat (Z.to_nat n) ++ ".0".
Proof.
  intros [Hn0 Hn]. split; [|apply decimal_1_entero, Hn0].
  destruct n as [|p|p]; [vm_compute; reflexivity| |lia].
  pose proof (PyFloatFacts.digits2_pos_bound p 53 ltac:(lia) Hn) as Hd53.
  assert (0 < Zpos (digits2_pos p))%Z as Hd0 by lia.
  change 1024%Z with (2 ^ 10)%Z at 1.
  change (1024 ^ 2)%Z with (2 ^ 20)%Z at 1.
  change (1024 ^ 3)%Z with (2 ^ 30)%Z at 1.
  change (1024 ^ 4)%Z with (2 ^ 40)%Z at 1.
  rewrite !digits2_pos_le by lia.
  unfold _formato_bytes. cbn [formato_bytes_desde menor_1024].
  change 1024%Z with (2 ^ 10)%Z at 1. rewrite digits2_pos_le by lia.
  destruct (Z.leb_spec (Zpos (digits2_pos p)) 10) as [H10|H10].
  { cbn [formato_unidad].
    change (PyFloat.of_int (Zpos p))
      with (binary_normalize PyFloat.prec PyFloat.emax (Zpos p) (- 0) false).
    destruct (binary_normalize_exacto p 0 Hn ltac:(lia)) as (m & -> & Hd & Hm).
    rewrite (format_1f_exacto m _ (Zpos p) (53 - Zpos (digits2_pos p)) 0); [|lia..|exact Hm].
    reflexivity. }
  cbn [dividir_1024].
  change (binary_normalize PyFloat.prec PyFloat.emax (Zpos p) (-10) false)
    with (binary_normalize PyFloat.prec PyFloat.emax (Zpos p) (- (10)) false).
  destruct (binary_normalize_exacto p 10 Hn ltac:(lia)) as (m & -> & Hd & Hm).
  cbn [menor_1024]. rewrite (ltb_1024 m _ Hd).
  destruct (Z.leb_spec (Zpos (digits2_pos p)) 20) as [H20|H20].
  { assert ((Zpos (digits2_pos p) - 53 - 10 <? -42)%Z = true) as -> by (apply Z.ltb_lt; lia).
    cbn [formato_unidad].
    rewrite (format_1f_exacto m _ (Zpos p) (53 - Zpos (digits2_pos p)) 10); [|lia..|exact Hm].
    reflexivity. }
  assert ((Zpos (digits2_pos p) - 53 - 10 <? -42)%Z = false) as -> by (apply Z.ltb_ge; lia).
  cbn [dividir_1024]. rewrite (div_1024 m _ Hd) by lia.
  cbn [menor_1024]. rewrite (ltb_1024 m _ Hd).
  destruct (Z.leb_spec (Zpos (digits2_pos p)) 30) as [H30|H30].
  { assert ((Zpos (digits2_pos p) - 53 - 10 - 10 <? -42)%Z = true) as ->
      by (apply Z.ltb_lt; lia).
    cbn [formato_unidad].
    rewrite (format_1f_exacto m _ (Zpos p) (53 - Zpos (digits2_pos p)) 20); [|lia..|exact Hm].
    reflexivity. }
  assert ((Zpos (digits2_pos p) - 53 - 10 - 10 <? -42)%Z = false) as ->
    by (apply Z.ltb_ge; lia).
  cbn [dividir_1024]. rewrite (div_1024 m _ Hd) by lia.
  cbn [menor_1024]. rewrite (ltb_1024 m _ Hd).
  destruct (Z.leb_spec (Zpos (digits2_pos p)) 40) as [H40|H40].
  { assert ((Zpos (digits2_pos p) - 53 - 10 - 10 - 10 <? -42)%Z = true) as ->
      by (apply Z.ltb_lt; lia).
    cbn [formato_unidad].
    rewrite (format_1f_exacto m _ (Zpos p) (53 - Zpos (digits2_pos p)) 30); [|lia..|exact Hm].
    reflexivity. }
  assert ((Zpos (digits2_pos p) - 53 - 10 - 10 - 10 <? -42)%Z = false) as ->
    by (apply Z.ltb_ge; lia).
  cbn [dividir_1024]. rewrite (div_1024 m _ Hd) by lia.
  cbn [formato_unidad].
  rewrite (format_1f_exacto m _ (Zpos p) (53 - Zpos (digits2_pos p)) 40); [|lia..|exact Hm].
  reflexivity.
Qed.

Lemma X10_formato_bytes_witness :
  _formato_bytes 1536 = inr "1.5 KB" /\
  _formato_bytes 1048575 = inr "1024.0 KB" /\
  _formato_bytes 1280 = inr "1.2 KB" /\
  _formato_bytes 1023 = inr "1023.0 B".
Proof.
  split; [|split; [|split]].
  - apply (proj1 (X10_formato_bytes 1536 ltac:(lia))).
  - apply (proj1 (X10_formato_bytes 1048575 ltac:(lia))).
  - apply (proj1 (X10_formato_bytes 1280 ltac:(lia))).
  - apply (proj1 (X10_formato_bytes 1023 ltac:(lia))).
Defined.
